(** * euro-scraping: the link collector and the article extractor of [3euro.py]

    The script runs two loops in sequence.  The first drives a browser over at
    most five listing pages and gathers article URLs in the set
    [all_article_links]; the second requests every gathered URL and appends a
    record [{url, title, author, publication_date, content}] to [article_data].

    What the script computes itself (the link filter, the selector cascades,
    the two loops with their [break]/[continue]/[except] paths) is embedded
    from the source.  What it calls in libraries is modelled next to it:
    Python's [str] methods, [urllib.parse.urljoin] (which [requests.compat]
    re-exports), the one regular expression, and the part of BeautifulSoup's
    tree search that the script uses.  The browser and the network are an
    environment: a function from a URL to what a load or a request gives.

    Characters are code points below 256 ([ascii]); on these [\d] is [0-9]. *)

From Stdlib Require Import Ascii String List Bool Arith Lia DecimalString DecimalNat.
From stdpp Require Import base option list gmap sets strings.
Import ListNotations.

Local Open Scope nat_scope.

(* ===================================================================== *)
(** ** Python strings *)
(* ===================================================================== *)

Module Py.

(** [s.startswith(p)] *)
Fixpoint startswith (s p : string) {struct p} : bool :=
  match p, s with
  | EmptyString, _ => true
  | String a p', String b s' => Ascii.eqb a b && startswith s' p'
  | String _ _, EmptyString => false
  end.

(** [sub in s] *)
Fixpoint str_in (sub s : string) : bool :=
  startswith s sub ||
  match s with
  | EmptyString => false
  | String _ s' => str_in sub s'
  end.

(** [c in s] for a single character [c] *)
Fixpoint chr_in (c : ascii) (s : string) : bool :=
  match s with
  | EmptyString => false
  | String a s' => Ascii.eqb a c || chr_in c s'
  end.

(** [s[:n]] and [s[n:]] for [n >= 0] *)
Fixpoint take (n : nat) (s : string) : string :=
  match n, s with
  | S n', String a s' => String a (take n' s')
  | _, _ => EmptyString
  end.

Fixpoint drop (n : nat) (s : string) : string :=
  match n, s with
  | S n', String _ s' => drop n' s'
  | _, _ => s
  end.

(** [s.find(c)], [None] for Python's [-1] *)
Fixpoint find (c : ascii) (s : string) : option nat :=
  match s with
  | EmptyString => None
  | String a s' => if Ascii.eqb a c then Some 0 else S <$> find c s'
  end.

(** [s.find(c, start)] for [start >= 0] *)
Definition find_from (c : ascii) (s : string) (start : nat) : option nat :=
  if String.length s <? start then None
  else (fun i => start + i) <$> find c (drop start s).

(** [s.rfind(c)] *)
Fixpoint rfind (c : ascii) (s : string) : option nat :=
  match s with
  | EmptyString => None
  | String a s' =>
      match rfind c s' with
      | Some i => Some (S i)
      | None => if Ascii.eqb a c then Some 0 else None
      end
  end.

(** [s.split(c)]: never the empty list *)
Fixpoint split (c : ascii) (s : string) : list string :=
  match s with
  | EmptyString => [EmptyString]
  | String a s' =>
      if Ascii.eqb a c then EmptyString :: split c s'
      else match split c s' with
           | h :: t => String a h :: t
           | [] => [String a EmptyString]
           end
  end.

(** [s.split(c, 1)] when [c in s]: the text before and after the first [c] *)
Definition split1 (c : ascii) (s : string) : option (string * string) :=
  (fun i => (take i s, drop (S i) s)) <$> find c s.

(** [sep.join(l)] *)
Fixpoint join (sep : string) (l : list string) : string :=
  match l with
  | [] => EmptyString
  | [x] => x
  | x :: l' => x +:+ sep +:+ join sep l'
  end.

(** [s.replace(c, "")] *)
Fixpoint remove_chr (c : ascii) (s : string) : string :=
  match s with
  | EmptyString => EmptyString
  | String a s' => if Ascii.eqb a c then remove_chr c s' else String a (remove_chr c s')
  end.

(** [s.lstrip(chars)] *)
Fixpoint lstrip (chars : string) (s : string) : string :=
  match s with
  | EmptyString => EmptyString
  | String a s' => if chr_in a chars then lstrip chars s' else s
  end.

(** [s.rstrip(chars)] *)
Fixpoint rstrip_chars (chars : string) (s : string) : string :=
  match s with
  | EmptyString => EmptyString
  | String a s' =>
      match rstrip_chars chars s' with
      | EmptyString => if chr_in a chars then EmptyString else String a EmptyString
      | r => String a r
      end
  end.

(** [str.isspace] on one character below 256 *)
Definition isspace (a : ascii) : bool :=
  let n := nat_of_ascii a in
  ((9 <=? n) && (n <=? 13)) || ((28 <=? n) && (n <=? 32)) || (n =? 133) || (n =? 160).

Fixpoint lstrip_space (s : string) : string :=
  match s with
  | EmptyString => EmptyString
  | String a s' => if isspace a then lstrip_space s' else s
  end.

(** the text up to its last character that is no white space *)
Fixpoint rstrip_space (s : string) : string :=
  match s with
  | EmptyString => EmptyString
  | String a s' =>
      match rstrip_space s' with
      | EmptyString => if isspace a then EmptyString else String a EmptyString
      | r => String a r
      end
  end.

(** [s.strip()] *)
Definition strip (s : string) : string := rstrip_space (lstrip_space s).

(** [c.isascii() and c.isalpha()] *)
Definition is_ascii_alpha (a : ascii) : bool :=
  let n := nat_of_ascii a in
  ((65 <=? n) && (n <=? 90)) || ((97 <=? n) && (n <=? 122)).

(** [\d] of [re] on a character below 256 *)
Definition isdigit (a : ascii) : bool :=
  let n := nat_of_ascii a in (48 <=? n) && (n <=? 57).

(** [s.lower()], on the characters a URL scheme is made of *)
Definition lower_chr (a : ascii) : ascii :=
  let n := nat_of_ascii a in
  if (65 <=? n) && (n <=? 90) then ascii_of_nat (n + 32) else a.

Fixpoint lower (s : string) : string :=
  match s with
  | EmptyString => EmptyString
  | String a s' => String (lower_chr a) (lower s')
  end.

(** [all(c in chars for c in s)] *)
Fixpoint all_in (chars s : string) : bool :=
  match s with
  | EmptyString => true
  | String a s' => chr_in a chars && all_in chars s'
  end.

(** [str(n)] for a natural number *)
Definition str_of_nat (n : nat) : string := NilEmpty.string_of_uint (Nat.to_uint n).

End Py.

(* ===================================================================== *)
(** ** [urllib.parse]: [urlsplit], [urlparse], [urlunparse], [urljoin] *)
(* ===================================================================== *)

Module Url.

Definition chr_slash : ascii := ascii_of_nat 47.
Definition chr_question : ascii := ascii_of_nat 63.
Definition chr_hash : ascii := ascii_of_nat 35.
Definition chr_colon : ascii := ascii_of_nat 58.
Definition chr_semicolon : ascii := ascii_of_nat 59.
Definition chr_lbracket : ascii := ascii_of_nat 91.
Definition chr_rbracket : ascii := ascii_of_nat 93.

Definition uses_relative : list string :=
  [""; "ftp"; "http"; "gopher"; "nntp"; "imap"; "wais"; "file"; "https"; "shttp"; "mms";
   "prospero"; "rtsp"; "rtspu"; "sftp"; "svn"; "svn+ssh"; "ws"; "wss"].

Definition uses_netloc : list string :=
  [""; "ftp"; "http"; "gopher"; "nntp"; "telnet"; "imap"; "wais"; "file"; "mms"; "https";
   "shttp"; "snews"; "prospero"; "rtsp"; "rtspu"; "rsync"; "svn"; "svn+ssh"; "sftp"; "nfs";
   "git"; "git+ssh"; "ws"; "wss"].

Definition uses_params : list string :=
  [""; "ftp"; "hdl"; "prospero"; "http"; "imap"; "https"; "shttp"; "rtsp"; "rtspu"; "sip";
   "sips"; "mms"; "sftp"; "tel"].

Definition scheme_chars : string :=
  "abcdefghijklmnopqrstuvwxyzABCDEFGHIJKLMNOPQRSTUVWXYZ0123456789+-.".

(** the characters [chr(0)] to [chr(32)] *)
Definition WHATWG_C0_CONTROL_OR_SPACE : string :=
  string_of_list_ascii (map ascii_of_nat (seq 0 33)).

(** tab, carriage return, line feed *)
Definition UNSAFE_URL_BYTES_TO_REMOVE : list ascii :=
  [ascii_of_nat 9; ascii_of_nat 13; ascii_of_nat 10].

(** [for b in _UNSAFE_URL_BYTES_TO_REMOVE: url = url.replace(b, "")] *)
Definition remove_unsafe (url : string) : string :=
  fold_left (fun u b => Py.remove_chr b u) UNSAFE_URL_BYTES_TO_REMOVE url.

(** [s in l] for a list of strings *)
Definition mem (s : string) (l : list string) : bool := existsb (String.eqb s) l.

(** [bool(s)]: a string is true when it is not empty *)
Definition nonempty (s : string) : bool :=
  match s with EmptyString => false | String _ _ => true end.

Record SplitResult := mkSplit
  { s_scheme : string; s_netloc : string; s_path : string;
    s_query : string; s_fragment : string }.

Record ParseResult := mkParse
  { scheme : string; netloc : string; path : string;
    params : string; query : string; fragment : string }.

(** [_splitparams(url)] *)
Definition splitparams (url : string) : string * string :=
  let cut (i : option nat) :=
    match i with
    | Some i => (Py.take i url, Py.drop (i + 1) url)
    | None => (Py.take (String.length url - 1) url, url)
    end in
  if Py.chr_in chr_slash url then
    match Py.find_from chr_semicolon url (default 0 (Py.rfind chr_slash url)) with
    | None => (url, EmptyString)
    | Some i => cut (Some i)
    end
  else cut (Py.find chr_semicolon url).

(** [_splitnetloc(url, start)] *)
Definition splitnetloc (url : string) (start : nat) : string * string :=
  let delim :=
    fold_left
      (fun delim c =>
         match Py.find_from c url start with
         | Some wdelim => Nat.min delim wdelim
         | None => delim
         end)
      [chr_slash; chr_question; chr_hash] (String.length url) in
  (Py.drop start (Py.take delim url), Py.drop delim url).

(** [segments[1:-1] = filter(None, segments[1:-1])] *)
Definition filter_middle (segments : list string) : list string :=
  match segments with
  | [] => []
  | first :: rest =>
      match rest with
      | [] => [first]
      | _ => first :: List.filter nonempty (removelast rest) ++ [List.last rest EmptyString]
      end
  end.

(** the loop of [urljoin] that resolves [.] and [..] *)
Definition resolve_step (resolved_path : list string) (seg : string) : list string :=
  if String.eqb seg ".." then removelast resolved_path
  else if String.eqb seg "." then resolved_path
  else resolved_path ++ [seg].

(** [urlunsplit((scheme, netloc, url, query, fragment))] *)
Definition urlunsplit (r : SplitResult) : string :=
  let url := s_path r in
  let url :=
    if nonempty (s_netloc r) ||
       (nonempty (s_scheme r) && mem (s_scheme r) uses_netloc
        && negb (String.eqb (Py.take 2 url) "//"))
    then
      let url :=
        if nonempty url && negb (String.eqb (Py.take 1 url) "/") then "/" +:+ url else url in
      "//" +:+ s_netloc r +:+ url
    else url in
  let url := if nonempty (s_scheme r) then s_scheme r +:+ ":" +:+ url else url in
  let url := if nonempty (s_query r) then url +:+ "?" +:+ s_query r else url in
  if nonempty (s_fragment r) then url +:+ "#" +:+ s_fragment r else url.

(** [urlunparse((scheme, netloc, url, params, query, fragment))] *)
Definition urlunparse (r : ParseResult) : string :=
  let url := if nonempty (params r) then path r +:+ ";" +:+ params r else path r in
  urlunsplit (mkSplit (scheme r) (netloc r) url (query r) (fragment r)).

(** the scheme test of [urlsplit]: with [i = url.find(':')], when [i > 0],
    [url[0]] is an ASCII letter and every character of [url[:i]] is in
    [scheme_chars], the scheme is [url[:i].lower()] and the rest [url[i+1:]] *)
Definition split_scheme (url scheme : string) : string * string :=
  match Py.find chr_colon url, url with
  | Some (S i'), String c0 _ =>
      if Py.is_ascii_alpha c0 && Py.all_in scheme_chars (Py.take (S i') url)
      then (Py.lower (Py.take (S i') url), Py.drop (S i' + 1) url)
      else (scheme, url)
  | _, _ => (scheme, url)
  end.

Section Parse.

(** [_check_bracketed_netloc(netloc)] validates a host written in brackets as
    an IPv6 or IPvFuture address with the [ipaddress] module; it returns
    ([true]) or raises [ValueError] ([false]).  The validation is left open. *)
Variable check_bracketed_netloc : string -> bool.

(** [urlsplit(url, scheme)], [None] when it raises [ValueError].
    [_checknetloc] is left out: it raises only when NFKC normalisation of the
    host produces one of [/?#@:], which no character below 256 does. *)
Definition urlsplit (url scheme : string) : option SplitResult :=
  let url := Py.lstrip WHATWG_C0_CONTROL_OR_SPACE url in
  let scheme := Py.rstrip_chars WHATWG_C0_CONTROL_OR_SPACE
                  (Py.lstrip WHATWG_C0_CONTROL_OR_SPACE scheme) in
  let url := remove_unsafe url in
  let scheme := remove_unsafe scheme in
  let '(scheme, url) := split_scheme url scheme in
  let finish (netloc url : string) : SplitResult :=
    let '(url, fragment) := default (url, EmptyString) (Py.split1 chr_hash url) in
    let '(url, query) := default (url, EmptyString) (Py.split1 chr_question url) in
    mkSplit scheme netloc url query fragment in
  if String.eqb (Py.take 2 url) "//" then
    let '(netloc, url) := splitnetloc url 2 in
    let has_l := Py.chr_in chr_lbracket netloc in
    let has_r := Py.chr_in chr_rbracket netloc in
    if (has_l && negb has_r) || (has_r && negb has_l) then None
    else if has_l && has_r && negb (check_bracketed_netloc netloc) then None
    else Some (finish netloc url)
  else Some (finish EmptyString url).

(** [urlparse(url, scheme)] *)
Definition urlparse (url scheme : string) : option ParseResult :=
  r ← urlsplit url scheme;
  let '(url, params) :=
    if mem (s_scheme r) uses_params && Py.chr_in chr_semicolon (s_path r)
    then splitparams (s_path r)
    else (s_path r, EmptyString) in
  Some (mkParse (s_scheme r) (s_netloc r) url params (s_query r) (s_fragment r)).

(** [urljoin(base, url)], [None] when it raises [ValueError] *)
Definition urljoin (base url : string) : option string :=
  if negb (nonempty base) then Some url
  else if negb (nonempty url) then Some base
  else
    b ← urlparse base EmptyString;
    u ← urlparse url (scheme b);
    if negb (String.eqb (scheme u) (scheme b)) || negb (mem (scheme u) uses_relative)
    then Some url
    else if mem (scheme u) uses_netloc && nonempty (netloc u)
    then Some (urlunparse u)
    else
      let netloc := if mem (scheme u) uses_netloc then netloc b else netloc u in
      if negb (nonempty (path u)) && negb (nonempty (params u)) then
        let query := if negb (nonempty (query u)) then query b else query u in
        Some (urlunparse (mkParse (scheme u) netloc (path b) (params b) query (fragment u)))
      else
        let base_parts := Py.split chr_slash (path b) in
        let base_parts :=
          if negb (String.eqb (List.last base_parts EmptyString) EmptyString)
          then removelast base_parts else base_parts in
        let segments :=
          if String.eqb (Py.take 1 (path u)) "/" then Py.split chr_slash (path u)
          else filter_middle (base_parts ++ Py.split chr_slash (path u)) in
        let resolved_path := fold_left resolve_step segments [] in
        let resolved_path :=
          if mem (List.last segments EmptyString) ["."; ".."]
          then resolved_path ++ [EmptyString] else resolved_path in
        let joined := Py.join "/" resolved_path in
        let joined := if nonempty joined then joined else "/" in
        Some (urlunparse (mkParse (scheme u) netloc joined (params u) (query u) (fragment u))).

End Parse.

End Url.

(* ===================================================================== *)
(** ** BeautifulSoup: the parsed tree and the searches the script makes *)
(* ===================================================================== *)

Module Soup.

(** A parsed document.  A tag has its name, its [class] attribute (absent, or
    the list of its white-space separated tokens, as bs4 stores it), its other
    attributes (the dict [tag.attrs] without [class]; the script reads [href],
    [name], [content], [property] and [datetime], all single strings) and its
    children.  A string has the class bs4 gave it when it built the tree:
    [NavigableString] is ordinary text (or [CData]); [OtherString] is a
    comment, a doctype, a declaration or a processing instruction, which
    [get_text] never reports; [ContainerString] is text inside an [rt], [rp],
    [style], [script] or [template] element ([RubyTextString],
    [RubyParenthesisString], [Stylesheet], [Script], [TemplateString]), with
    the name of the innermost such element around it. *)
#[warnings="-register-all"]
Inductive node :=
| NavigableString (text : string)
| OtherString (text : string)
| Tag (name : string) (class_ : option (list string))
      (attrs : gmap string string) (contents : list node)
| ContainerString (container : string) (text : string).

(** [tag.descendants]: every node below the tag, in document order *)
Fixpoint descendants (n : node) : list node :=
  match n with
  | Tag _ _ _ contents =>
      (fix below (l : list node) : list node :=
         match l with
         | [] => []
         | c :: l' => c :: descendants c ++ below l'
         end) contents
  | _ => []
  end.

Definition is_tag (n : node) : bool :=
  match n with Tag _ _ _ _ => true | _ => false end.

(** [tag.get(key)] for an attribute other than [class] *)
Definition get (key : string) (n : node) : option string :=
  match n with Tag _ _ attrs _ => attrs !! key | _ => None end.

(** the tag is named one of [names] *)
Definition named (names : list string) (n : node) : bool :=
  match n with Tag name _ _ _ => Url.mem name names | _ => false end.

(** bs4's [_matches] on the [class] attribute: the test is tried on every
    token, then on the tokens joined by a space; an absent attribute is
    tested as [None]. *)
Definition class_matches (test : option string -> bool) (n : node) : bool :=
  match n with
  | Tag _ None _ _ => test None
  | Tag _ (Some tokens) _ _ =>
      existsb (fun token => test (Some token)) tokens || test (Some (Py.join " " tokens))
  | _ => false
  end.

(** [class_='...']: the test of a string against a string is equality,
    and [None] does not match *)
Definition class_is (c : string) (n : node) : bool :=
  class_matches (fun markup => match markup with Some m => String.eqb m c | None => false end) n.

(** [{key: value}]: the attribute is there and equals [value] *)
Definition attr_is (key value : string) (n : node) : bool :=
  match get key n with Some v => String.eqb v value | None => false end.

(** [key=True]: the attribute is there *)
Definition has_attr (key : string) (n : node) : bool :=
  match get key n with Some _ => true | None => false end.

(** [tag.find_all(...)]: the tags below [n] that pass [strainer], in document
    order; [tag.find(...)] is the first of them *)
Definition find_all (strainer : node -> bool) (n : node) : list node :=
  List.filter (fun d => is_tag d && strainer d) (descendants n).

Definition find (strainer : node -> bool) (n : node) : option node :=
  head (find_all strainer n).

(** the elements whose text gets a string class of its own
    ([DEFAULT_STRING_CONTAINERS] of the HTML tree builders) *)
Definition string_containers : list string := ["rt"; "rp"; "style"; "script"; "template"].

(** whether [get_text], called on a tag named [name], reports the string [d]
    ([tag.interesting_string_types]): a tag that is a string container reports
    the strings of its own class only, any other tag the ordinary ones *)
Definition reported (name : string) (d : node) : option string :=
  match d with
  | NavigableString text => if Url.mem name string_containers then None else Some text
  | ContainerString container text =>
      if Url.mem name string_containers && String.eqb container name then Some text else None
  | _ => None
  end.

(** [tag.get_text(strip=True)]: the reported strings below the tag, each
    stripped, the empty ones dropped, joined without a separator *)
Definition strings (n : node) : list string :=
  match n with
  | Tag name _ _ _ => omap (reported name) (descendants n)
  | _ => []
  end.

Definition get_text_strip (n : node) : string :=
  Py.join EmptyString (List.filter Url.nonempty (map Py.strip (strings n))).

(** the tag has class [c]: [c] is one of the tokens (the CSS selector [.c]) *)
Definition has_class (c : string) (n : node) : bool :=
  match n with
  | Tag _ (Some tokens) _ _ => Url.mem c tokens
  | _ => false
  end.

(** [soup.select('parent_name.parent_class > child_name')]: the tags named
    [child_name] whose parent is a [parent_name] of class [parent_class], in
    document order *)
Fixpoint select_child (parent_name parent_class child_name : string) (n : node) : list node :=
  match n with
  | Tag _ _ _ contents =>
      let parent_ok := named [parent_name] n && has_class parent_class n in
      (fix below (l : list node) : list node :=
         match l with
         | [] => []
         | c :: l' =>
             (if parent_ok && named [child_name] c then [c] else [])
             ++ select_child parent_name parent_class child_name c ++ below l'
         end) contents
  | _ => []
  end.

End Soup.

(* ===================================================================== *)
(** ** The environment of a run *)
(* ===================================================================== *)

(** What [driver.get(url)], the wait for [body] and the parse of
    [driver.page_source] give for a listing page: the parsed page, or the
    exception raised on the way, by the [except] clause that catches it. *)
Inductive page_outcome :=
| PageSource (soup : Soup.node)
| RaisesTimeoutException
| RaisesNoSuchElementException
| RaisesWebDriverException
| RaisesOtherException.

(** What [requests.get(link)], [raise_for_status()] and the parse of the
    response give for an article: the parsed article, or the exception raised
    in the [try] block before [article_data.append]. *)
Inductive response :=
| ArticleSoup (article_soup : Soup.node)
| RaisesTimeout
| RaisesHTTPError (status_code : nat)
| RaisesRequestException
| RaisesAttributeError
| RaisesTypeError
| RaisesException.

Record world := mkWorld
  { check_bracketed_netloc : string -> bool;
    driver_get : string -> page_outcome;
    requests_get : string -> response }.

(** What a run does to the outside, in the order it does it. *)
Inductive event :=
| DriverGet (url : string)
| RequestsGet (link : string)
| TimeSleep (seconds : nat).

(* ===================================================================== *)
(** ** The link collector (lines 27 to 104) *)
(* ===================================================================== *)

Definition base_url : string := "https://www.euronews.com/".
Definition max_pages_to_scrape : nat := 5.
Definition request_delay : nat := 5.

Definition excluded_patterns : list string :=
  ["/tag/"; "/my-europe/"; "/video/"; "/culture/"; "/green/"; "/programs/"; "/live";
   "/widgets"; "/business/markets"].

(** One position of a regular expression without repetition or choice. *)
Inductive re_item :=
| Lit (c : ascii)
| Digit.

Definition re_item_matches (i : re_item) (a : ascii) : bool :=
  match i with
  | Lit c => Ascii.eqb a c
  | Digit => Py.isdigit a
  end.

(** [re.match(pattern, s)]: the pattern matches at the start of [s] *)
Fixpoint re_match (pattern : list re_item) (s : string) {struct pattern} : bool :=
  match pattern, s with
  | [], _ => true
  | i :: pattern', String a s' => re_item_matches i a && re_match pattern' s'
  | _ :: _, EmptyString => false
  end.

(** [re.search(pattern, s)]: the pattern matches somewhere in [s] *)
Fixpoint re_search (pattern : list re_item) (s : string) : bool :=
  re_match pattern s ||
  match s with
  | EmptyString => false
  | String _ s' => re_search pattern s'
  end.

(** [r'/\d{4}/\d{2}/\d{2}/'] *)
Definition article_pattern : list re_item :=
  [Lit Url.chr_slash; Digit; Digit; Digit; Digit; Lit Url.chr_slash; Digit; Digit;
   Lit Url.chr_slash; Digit; Digit; Lit Url.chr_slash].

(** [f"{base_url}?page={page_num}" if page_num > 0 else base_url] *)
Definition page_url (page_num : nat) : string :=
  if 0 <? page_num then base_url +:+ "?page=" +:+ Py.str_of_nat page_num else base_url.

(** [lambda x: x and ('article' in x or 'media' in x or 'headline' in x or
    'c-article-tile' in x)] *)
Definition container_class (x : option string) : bool :=
  match x with
  | None => false
  | Some x =>
      Url.nonempty x &&
      (Py.str_in "article" x || Py.str_in "media" x || Py.str_in "headline" x
       || Py.str_in "c-article-tile" x)
  end.

(** [soup.find_all(['article', 'div', 'section'], class_=lambda ...)] *)
Definition article_containers (soup : Soup.node) : list Soup.node :=
  Soup.find_all
    (fun t => Soup.named ["article"; "div"; "section"] t && Soup.class_matches container_class t)
    soup.

(** [container.find_all('a', href=True)] *)
Definition link_elements (container : Soup.node) : list Soup.node :=
  Soup.find_all (fun t => Soup.named ["a"] t && Soup.has_attr "href" t) container.

(** A loop body either runs to its end or raises; either way the state it
    reached stays (the set is mutated in place). *)
Inductive flow (S : Type) :=
| Completed (s : S)
| Raised (s : S).
Arguments Completed {S} s.
Arguments Raised {S} s.

(** [for x in l: body], stopped by the first exception *)
Fixpoint for_each {A S : Type} (body : A -> S -> flow S) (l : list A) (s : S) : flow S :=
  match l with
  | [] => Completed s
  | x :: l' =>
      match body x s with
      | Completed s' => for_each body l' s'
      | Raised s' => Raised s'
      end
  end.

Record scan_state := mkScan
  { all_article_links : gset string;
    page_links_found : nat }.

(** the test of line 74 on [full_url] *)
Definition qualifies (full_url : string) : bool :=
  negb (existsb (fun pattern => Py.str_in pattern full_url) excluded_patterns)
  && re_search article_pattern full_url.

(** lines 64 to 76: the body of the inner loop.  [urljoin] raising
    [ValueError] leaves the loops. *)
Definition visit_link (w : world) (link_element : Soup.node) (s : scan_state)
  : flow scan_state :=
  match Soup.get "href" link_element with
  | None => Completed s
  | Some href =>
      if Url.nonempty href && Py.startswith href "/" && (1 <? String.length href) then
        match Url.urljoin (check_bracketed_netloc w) base_url href with
        | None => Raised s
        | Some full_url =>
            if qualifies full_url then
              Completed (mkScan ({[full_url]} ∪ all_article_links s) (page_links_found s + 1))
            else Completed s
        end
      else Completed s
  end.

(** lines 61 to 76: both loops over one page, [page_links_found] starting at 0 *)
Definition scan_page (w : world) (containers : list Soup.node) (links : gset string)
  : flow scan_state :=
  for_each (fun container => for_each (visit_link w) (link_elements container))
           containers (mkScan links 0).

Record collector_state := mkCollector
  { links : gset string;
    trace : list event }.

Definition emit (e : event) (c : collector_state) : collector_state :=
  mkCollector (links c) (trace c ++ [e]).

Inductive control :=
| NextIteration
| Break.

Definition is_empty {A : Type} (l : list A) : bool :=
  match l with [] => true | _ :: _ => false end.

(** lines 37 to 101: one turn of the page loop *)
Definition scrape_page (w : world) (page_num : nat) (c : collector_state)
  : collector_state * control :=
  let url := page_url page_num in
  let c := emit (DriverGet url) c in
  match driver_get w url with
  | PageSource soup =>
      let containers := article_containers soup in
      if is_empty containers && (0 <? page_num) then (c, Break)
      else if is_empty containers && (page_num =? 0) then (c, Break)
      else
        match scan_page w containers (links c) with
        | Completed s =>
            let c := mkCollector (all_article_links s) (trace c) in
            if (page_links_found s =? 0) && (0 <? page_num) then (c, Break)
            else (emit (TimeSleep request_delay) c, NextIteration)
        | Raised s => (mkCollector (all_article_links s) (trace c), NextIteration)
        end
  | RaisesTimeoutException => (c, NextIteration)
  | RaisesNoSuchElementException => (c, NextIteration)
  | RaisesWebDriverException => (c, Break)
  | RaisesOtherException => (c, NextIteration)
  end.

(** [for page_num in page_nums: ...] with its [break]s *)
Fixpoint page_loop (w : world) (page_nums : list nat) (c : collector_state) : collector_state :=
  match page_nums with
  | [] => c
  | page_num :: rest =>
      match scrape_page w page_num c with
      | (c', Break) => c'
      | (c', NextIteration) => page_loop w rest c'
      end
  end.

(** lines 28 to 104: [for page_num in range(max_pages_to_scrape)] from the empty set *)
Definition collect_links (w : world) : collector_state :=
  page_loop w (seq 0 max_pages_to_scrape) (mkCollector ∅ []).

(* ===================================================================== *)
(** ** The article extractor (lines 107 to 231) *)
(* ===================================================================== *)

Definition article_request_delay : nat := 1.

(** the sentinel ['N/A'] *)
Definition NA : string := "N/A".

(** the dict appended to [article_data]; its values are Python strings *)
Record ArticleRecord := mkRecord
  { url : string;
    title : string;
    author : string;
    publication_date : string;
    content : string }.

(** lines 123 to 124 *)
Definition extract_title (article_soup : Soup.node) : string :=
  match Soup.find (Soup.named ["h1"]) article_soup with
  | Some title_tag => Soup.get_text_strip title_tag
  | None => NA
  end.

(** lines 140 to 149: the two lookups inside the byline [div] *)
Definition author_from_byline (article_soup : Soup.node) : string :=
  match Soup.find (fun t => Soup.named ["div"] t && Soup.class_is "c-article-byline" t)
                  article_soup with
  | Some byline_div =>
      match Soup.find (fun t => Soup.named ["span"] t && Soup.class_is "c-article-byline__name" t)
                      byline_div with
      | Some author_span => Soup.get_text_strip author_span
      | None =>
          match Soup.find (fun t => Soup.named ["a"] t && Soup.class_is "u-hover-underline" t)
                          byline_div with
          | Some other_author_element => Soup.get_text_strip other_author_element
          | None => NA
          end
      end
  | None => NA
  end.

(** lines 129 to 149 *)
Definition extract_author (article_soup : Soup.node) : string :=
  match Soup.find (Soup.class_is "c-article-byline__name") article_soup with
  | Some author_tag => Soup.get_text_strip author_tag
  | None =>
      match Soup.find (fun t => Soup.named ["meta"] t && Soup.attr_is "name" "author" t)
                      article_soup with
      | Some meta_author =>
          match Soup.get "content" meta_author with
          | Some meta_content => meta_content
          | None => author_from_byline article_soup
          end
      | None => author_from_byline article_soup
      end
  end.

(** [a or b] on two results of [find]: a tag is true *)
Definition or_else {A : Type} (a b : option A) : option A :=
  match a with Some _ => a | None => b end.

(** lines 169 to 171 *)
Definition date_from_span (article_soup : Soup.node) : string :=
  match Soup.find (fun t => Soup.named ["span"] t && Soup.class_is "c-article-byline__date" t)
                  article_soup with
  | Some date_span => Soup.get_text_strip date_span
  | None => NA
  end.

(** lines 163 to 171 *)
Definition date_from_meta (article_soup : Soup.node) : string :=
  match or_else
          (Soup.find (fun t => Soup.named ["meta"] t
                               && Soup.attr_is "property" "article:published_time" t)
                     article_soup)
          (Soup.find (fun t => Soup.named ["meta"] t && Soup.attr_is "name" "pubdate" t)
                     article_soup) with
  | Some meta_pub_date =>
      match Soup.get "content" meta_pub_date with
      | Some meta_content => meta_content
      | None => date_from_span article_soup
      end
  | None => date_from_span article_soup
  end.

(** lines 157 to 171 *)
Definition extract_publication_date (article_soup : Soup.node) : string :=
  match Soup.find (Soup.named ["time"]) article_soup with
  | Some date_tag =>
      match Soup.get "datetime" date_tag with
      | Some datetime => datetime
      | None => date_from_meta article_soup
      end
  | None => date_from_meta article_soup
  end.

(** ["\n".join([p.get_text(strip=True) for p in content_paragraphs])] *)
Definition newline : string := String (ascii_of_nat 10) EmptyString.

Definition join_paragraphs (content_paragraphs : list Soup.node) : string :=
  Py.join newline (map Soup.get_text_strip content_paragraphs).

(** lines 178 to 196 *)
Definition extract_content (article_soup : Soup.node) : string :=
  let content_paragraphs := Soup.select_child "div" "c-article-content" "p" article_soup in
  if negb (is_empty content_paragraphs) then join_paragraphs content_paragraphs
  else
    match Soup.find (fun t => Soup.named ["div"] t && Soup.class_is "c-article__body" t)
                    article_soup with
    | Some article_body =>
        let content_paragraphs := Soup.find_all (Soup.named ["p"]) article_body in
        if negb (is_empty content_paragraphs) then join_paragraphs content_paragraphs else NA
    | None =>
        match Soup.find (Soup.named ["article"]) article_soup with
        | Some general_article_container =>
            let content_paragraphs := Soup.find_all (Soup.named ["p"]) general_article_container in
            if negb (is_empty content_paragraphs) then join_paragraphs content_paragraphs else NA
        | None => NA
        end
    end.

(** lines 203 to 209: the record of one parsed article *)
Definition make_record (link : string) (article_soup : Soup.node) : ArticleRecord :=
  mkRecord link (extract_title article_soup) (extract_author article_soup)
           (extract_publication_date article_soup) (extract_content article_soup).

Record extractor_state := mkExtractor
  { article_data : list ArticleRecord;
    effects : list event }.

(** lines 116 to 231: one turn of the article loop.  Every [except] clause
    logs and continues; the sleep of line 214 is the last statement of the
    [try] block. *)
Definition process_link (w : world) (link : string) (e : extractor_state) : extractor_state :=
  let e := mkExtractor (article_data e) (effects e ++ [RequestsGet link]) in
  match requests_get w link with
  | ArticleSoup article_soup =>
      mkExtractor (article_data e ++ [make_record link article_soup])
                  (effects e ++ [TimeSleep article_request_delay])
  | RaisesTimeout => e
  | RaisesHTTPError _ => e
  | RaisesRequestException => e
  | RaisesAttributeError => e
  | RaisesTypeError => e
  | RaisesException => e
  end.

(** [for i, link in enumerate(links_to_process): ...] *)
Definition article_loop (w : world) (links_to_process : list string) (e : extractor_state)
  : extractor_state :=
  fold_left (fun e link => process_link w link e) links_to_process e.

(** lines 107 to 231, from [article_data = []] *)
Definition scrape_articles (w : world) (links_to_process : list string) : extractor_state :=
  article_loop w links_to_process (mkExtractor [] []).

(** The whole run.  [list(all_article_links)] lists the set in an order
    Python does not fix; [elements] is one such order, and what is proved of
    [scrape_articles] holds for every list of links. *)
Definition run (w : world) : collector_state * extractor_state :=
  let c := collect_links w in
  (c, scrape_articles w (elements (links c))).

(** The author cascade as the specification words it, with its step (3), the
    byline-name lookup inside the byline container, left out. *)
Definition extract_author_without_step3 (article_soup : Soup.node) : string :=
  let step4 :=
    match Soup.find (fun t => Soup.named ["div"] t && Soup.class_is "c-article-byline" t)
                    article_soup with
    | Some byline_div =>
        match Soup.find (fun t => Soup.named ["a"] t && Soup.class_is "u-hover-underline" t)
                        byline_div with
        | Some other_author_element => Soup.get_text_strip other_author_element
        | None => NA
        end
    | None => NA
    end in
  match Soup.find (Soup.class_is "c-article-byline__name") article_soup with
  | Some author_tag => Soup.get_text_strip author_tag
  | None =>
      match Soup.find (fun t => Soup.named ["meta"] t && Soup.attr_is "name" "author" t)
                      article_soup with
      | Some meta_author =>
          match Soup.get "content" meta_author with
          | Some meta_content => meta_content
          | None => step4
          end
      | None => step4
      end
  end.

(* ===================================================================== *)
(** ** Auxiliary notions for the statements *)
(* ===================================================================== *)

(** the URLs the browser was sent to, in order *)
Definition driver_gets (t : list event) : list string :=
  omap (fun e => match e with DriverGet u => Some u | _ => None end) t.

(** the request failed: no parsed article came back *)
Definition failed (r : response) : bool :=
  match r with ArticleSoup _ => false | _ => true end.

(** the state a loop body reached, however it ended *)
Definition reached {S : Type} (f : flow S) : S :=
  match f with Completed s => s | Raised s => s end.

Definition completed {S : Type} (f : flow S) : bool :=
  match f with Completed _ => true | Raised _ => false end.

(** how often [all_article_links.add] ran while page [page_num] was
    processed: [page_links_found] when the page was left; 0 for a page that
    did not load *)
Definition page_additions (w : world) (page_num : nat) : nat :=
  match driver_get w (page_url page_num) with
  | PageSource soup => page_links_found (reached (scan_page w (article_containers soup) ∅))
  | _ => 0
  end.

(** whether the turn for [page_num] ends the page loop; it does not depend
    on the links gathered so far (lemma [scrape_page_control]) *)
Definition page_control (w : world) (page_num : nat) : control :=
  snd (scrape_page w page_num (mkCollector ∅ [])).

(** the page numbers the loop visits: up to the first turn that breaks *)
Fixpoint visited (w : world) (page_nums : list nat) : list nat :=
  match page_nums with
  | [] => []
  | page_num :: rest =>
      page_num :: match page_control w page_num with
                  | Break => []
                  | NextIteration => visited w rest
                  end
  end.

(** what the turn for [page_num] adds to the trace; it does not depend on
    the state either (lemma [scrape_page_trace]) *)
Definition page_events (w : world) (page_num : nat) : list event :=
  trace (fst (scrape_page w page_num (mkCollector ∅ []))).

(** the record one turn of the article loop appends, if it appends one *)
Definition record_of (w : world) (link : string) : option ArticleRecord :=
  match requests_get w link with
  | ArticleSoup article_soup => Some (make_record link article_soup)
  | _ => None
  end.

(** what one turn of the article loop does to the outside *)
Definition link_events (w : world) (link : string) : list event :=
  RequestsGet link ::
  (if failed (requests_get w link) then [] else [TimeSleep article_request_delay]).

(** scheme and host of [base_url] (lemma [base_url_parse]) *)
Definition base_origin : string := "https://www.euronews.com".

(** what the link filter guarantees of a gathered URL: it passed the test of
    line 74, and it is [urljoin(base_url, href)] for an [href] of the page
    that starts with a slash and is longer than one character *)
Definition gathered (w : world) (full_url : string) : Prop :=
  qualifies full_url = true ∧
  ∃ href, Py.startswith href "/" = true ∧ 1 < String.length href ∧
          Url.urljoin (check_bracketed_netloc w) base_url href = Some full_url.

(* ===================================================================== *)
(** ** The result table (lines 234 to 240) *)
(* ===================================================================== *)

(** What the script shows of [pd.DataFrame(article_data)]: the first five
    rows ([df.head()]) when the frame has a row, a warning when it has none. *)
Inductive report :=
| PrintHead (rows : list ArticleRecord)
| WarnNoData.

Definition assemble (article_data : list ArticleRecord) : report :=
  if negb (is_empty article_data) then PrintHead (firstn 5 article_data) else WarnNoData.

(* ===================================================================== *)
(** ** Further notions for the statements *)
(* ===================================================================== *)

(** [href] is the [href] of a link element inside an article container of
    page [page_num] as the browser served it *)
Definition found_on_page (w : world) (page_num : nat) (href : string) : Prop :=
  ∃ soup container link_element,
    driver_get w (page_url page_num) = PageSource soup
    ∧ In container (article_containers soup)
    ∧ In link_element (link_elements container)
    ∧ Soup.get "href" link_element = Some href.



(** the container test of line 51 with its last alternative,
    ['c-article-tile' in x], left out *)
Definition container_class_without_tile (x : option string) : bool :=
  match x with
  | None => false
  | Some x =>
      Url.nonempty x && (Py.str_in "article" x || Py.str_in "media" x || Py.str_in "headline" x)
  end.

(** the last character of a string *)
Fixpoint last_chr (s : string) : option ascii :=
  match s with
  | EmptyString => None
  | String a EmptyString => Some a
  | String _ s' => last_chr s'
  end.

(** the string neither starts nor ends with white space *)
Definition trimmed (s : string) : bool :=
  match s with EmptyString => true | String a _ => negb (Py.isspace a) end
  && match last_chr s with Some b => negb (Py.isspace b) | None => true end.

(* ===================================================================== *)
(** ** Concrete documents and environments *)
(* ===================================================================== *)

Module Examples.

Definition document (contents : list Soup.node) : Soup.node :=
  Soup.Tag "[document]" None ∅ contents.

Definition anchor (href label : string) : Soup.node :=
  Soup.Tag "a" None {["href" := href]} [Soup.NavigableString label].

Definition tile (contents : list Soup.node) : Soup.node :=
  Soup.Tag "div" (Some ["c-article-tile"]) ∅ contents.

Definition paragraph (text : string) : Soup.node :=
  Soup.Tag "p" None ∅ [Soup.NavigableString text].

(** the browser shows [pages !! i] at [page_url i]; any other load times out *)
Definition serve (pages : list Soup.node) (u : string) : page_outcome :=
  match List.find (fun i => String.eqb (page_url i) u) (seq 0 (length pages)) with
  | Some i => match pages !! i with Some p => PageSource p | None => RaisesTimeoutException end
  | None => RaisesTimeoutException
  end.

(** a listing whose only link is a scheme-relative one to the French edition *)
Definition sister_site_listing : Soup.node :=
  document [tile [anchor "//fr.euronews.com/2024/03/05/budget-vote" "Vote du budget"]].

Definition sister_site_world : world :=
  mkWorld (fun _ => true) (serve [sister_site_listing; document []])
          (fun _ => RaisesRequestException).

(** a listing with one article, and a second page whose only link has an
    unbalanced bracket where a host is expected *)
Definition front_listing : Soup.node :=
  document [tile [anchor "/2024/03/05/budget-vote" "Budget vote"]].

Definition bracket_listing : Soup.node :=
  document [tile [anchor "//[" "broken"]].

Definition bracket_world : world :=
  mkWorld (fun _ => true) (serve [front_listing; bracket_listing; document []])
          (fun _ => RaisesRequestException).

(** a second page whose only link leads to a tag page *)
Definition tag_listing : Soup.node :=
  document [tile [anchor "/tag/politics" "Politics"]].

Definition barren_world : world :=
  mkWorld (fun _ => true) (serve [front_listing; tag_listing; front_listing])
          (fun _ => RaisesRequestException).

(** one listing page with three article links and one link to a tag page;
    every article is served *)
Definition scenario_listing : Soup.node :=
  document
    [tile [anchor "/2024/03/05/budget-vote" "Budget vote"];
     tile [anchor "/2024/03/06/summit" "Summit"];
     tile [anchor "/tag/2024/03/07/politics" "Politics"];
     tile [anchor "/next/2024/03/08/chips-act" "Chips act"]].

Definition scenario_world : world :=
  mkWorld (fun _ => true) (serve [scenario_listing; document []])
          (fun link => ArticleSoup
                         (document [Soup.Tag "h1" None ∅ [Soup.NavigableString link]])).

(** the second page does not load in time, the third shows the listing again *)
Definition timeout_world : world :=
  mkWorld (fun _ => true)
          (fun u => if String.eqb u (page_url 1) then RaisesTimeoutException
                    else serve [front_listing; front_listing; front_listing; document []] u)
          (fun _ => RaisesRequestException).

(** no article container on the first page *)
Definition bare_world : world :=
  mkWorld (fun _ => true) (serve [document [paragraph "Under maintenance"]; front_listing])
          (fun _ => RaisesRequestException).

(** an article whose only author mark is a [meta] tag *)
Definition meta_author_article : Soup.node :=
  document
    [Soup.Tag "html" None ∅
       [Soup.Tag "head" None ∅
          [Soup.Tag "meta" None {["name" := "author"; "content" := "Jane Doe"]} []];
        Soup.Tag "body" None ∅ [Soup.Tag "h1" None ∅ [Soup.NavigableString "Budget vote"]]]].

(** an article whose text is two paragraphs in a plain [article] element *)
Definition plain_article : Soup.node :=
  document
    [Soup.Tag "html" None ∅
       [Soup.Tag "body" None ∅
          [Soup.Tag "article" None ∅ [paragraph "A."; paragraph "B."]]]].

(** a page with nothing the selectors look for *)
Definition empty_article : Soup.node := document [].

Definition link_a : string := "https://www.euronews.com/2024/03/05/budget-vote".
Definition link_b : string := "https://www.euronews.com/2024/03/06/summit".

(** the first article is gone (404), the second is served *)
Definition gone_world : world :=
  mkWorld (fun _ => true) (serve [])
          (fun link => if String.eqb link link_a then RaisesHTTPError 404
                       else ArticleSoup plain_article).

(** every article is served *)
Definition served_world : world :=
  mkWorld (fun _ => true) (serve [front_listing; document []])
          (fun link => ArticleSoup meta_author_article).

(** the browser session breaks on the second page *)
Definition broken_session_world : world :=
  mkWorld (fun _ => true)
          (fun u => if String.eqb u (page_url 1) then RaisesWebDriverException
                    else serve [front_listing; front_listing; front_listing] u)
          (fun _ => RaisesRequestException).

(** an article with a [time] tag that has no [datetime], a [pubdate] and a
    [article:published_time] [meta] tag, and a date span *)
Definition dated_article : Soup.node :=
  document
    [Soup.Tag "head" None ∅
       [Soup.Tag "meta" None {["name" := "pubdate"; "content" := "2024-03-04"]} [];
        Soup.Tag "meta" None
          {["property" := "article:published_time"; "content" := "2024-03-05T10:00:00+01:00"]}
          []];
     Soup.Tag "body" None ∅
       [Soup.Tag "time" None ∅ [Soup.NavigableString "5 March"];
        Soup.Tag "span" (Some ["c-article-byline__date"]) ∅ [Soup.NavigableString "05/03/2024"]]].

(** an article whose body container holds no paragraph, next to an
    [article] element that holds two *)
Definition empty_body_article : Soup.node :=
  document
    [Soup.Tag "div" (Some ["c-article__body"]) ∅ [Soup.NavigableString "Loading"];
     Soup.Tag "article" None ∅ [paragraph "A."; paragraph "B."]].

(** an article with two author [meta] tags, the first one not Jane Doe's *)
Definition two_author_metas : Soup.node :=
  document
    [Soup.Tag "head" None ∅
       [Soup.Tag "meta" None {["name" := "author"; "content" := "John Roe"]} [];
        Soup.Tag "meta" None {["name" := "author"; "content" := "Jane Doe"]} []]].

(** an empty [article] element before the one that holds the two paragraphs *)
Definition two_articles : Soup.node :=
  document
    [Soup.Tag "article" None ∅ [];
     Soup.Tag "article" None ∅ [paragraph "A."; paragraph "B."]].

(** an [article] with two [p] children and a third [p] inside a quotation *)
Definition nested_paragraph_article : Soup.node :=
  document
    [Soup.Tag "article" None ∅
       [paragraph "A."; paragraph "B."; Soup.Tag "blockquote" None ∅ [paragraph "C."]]].

(** a byline whose name sits in a [script] element, next to a paragraph that
    holds a script *)
Definition script_byline : Soup.node :=
  Soup.Tag "script" (Some ["c-article-byline__name"]) ∅ [Soup.ContainerString "script" "Jane"].

Definition paragraph_with_script : Soup.node :=
  Soup.Tag "p" None ∅
    [Soup.NavigableString "A."; Soup.Tag "script" None ∅ [Soup.ContainerString "script" "x=1"]].

End Examples.

(* ===================================================================== *)
(** ** Proof steps that recur *)
(* ===================================================================== *)

(** case analysis on the first [find] the goal branches on *)
Ltac case_find x H :=
  match goal with
  | |- context [match Soup.find ?strainer ?n with _ => _ end] =>
      destruct (Soup.find strainer n) as [x|] eqn:H
  end.

(** decides a goal about every node [t] of a concrete list, given
    [Hin : In t l] and a premise [Hpre] about [t] that may fail *)
Ltac each_node Hin Hpre :=
  vm_compute in Hin;
  repeat (destruct Hin as [<-|Hin];
          [first [reflexivity | (vm_compute in Hpre; discriminate Hpre)] |]);
  destruct Hin.

(* ===================================================================== *)
(** * Properties *)
(* ===================================================================== *)

(** ** Strings *)

Lemma ascii_eqb_true (a b : ascii) : Ascii.eqb a b = true ↔ a = b.
Proof. apply Ascii.eqb_eq. Qed.

Lemma startswith_app (p s : string) : Py.startswith (p +:+ s) p = true.
Proof.
  induction p as [|a p IH]; [reflexivity|].
  simpl. rewrite Ascii.eqb_refl. exact IH.
Qed.

Lemma startswith_inv (s p : string) :
  Py.startswith s p = true → ∃ rest, s = p +:+ rest.
Proof.
  revert s. induction p as [|a p IH]; intros s H; simpl in *.
  - by exists s.
  - destruct s as [|b s]; [done|].
    apply andb_true_iff in H as [Hab H]. apply Ascii.eqb_eq in Hab as ->.
    destruct (IH _ H) as [rest ->]. by exists rest.
Qed.

Lemma chr_in_app (c : ascii) (s1 s2 : string) :
  Py.chr_in c (s1 +:+ s2) = Py.chr_in c s1 || Py.chr_in c s2.
Proof.
  induction s1 as [|a s1 IH]; [reflexivity|].
  simpl. rewrite IH. by rewrite orb_assoc.
Qed.

(** A join of two or more strings by a space contains a space. *)
Lemma join_space_inv (tokens : list string) (c : string) :
  Py.join " " tokens = c → Py.chr_in " " c = false → Url.nonempty c = true →
  tokens = [c].
Proof.
  intros Hj Hsp Hne. destruct tokens as [|x [|y l]].
  - simpl in Hj. subst c. discriminate.
  - simpl in Hj. by subst.
  - exfalso. subst c. change (Py.join " " (x :: y :: l)) with (x +:+ " " +:+ Py.join " " (y :: l)) in Hsp.
    rewrite !chr_in_app in Hsp. simpl in Hsp.
    by rewrite orb_true_r in Hsp.
Qed.

(** ** The parsed tree *)

Lemma node_nested_ind (P : Soup.node → Prop) :
  (∀ text, P (Soup.NavigableString text)) →
  (∀ text, P (Soup.OtherString text)) →
  (∀ name cls attrs contents, Forall P contents → P (Soup.Tag name cls attrs contents)) →
  (∀ container text, P (Soup.ContainerString container text)) →
  ∀ n, P n.
Proof.
  intros Hs Ho Ht Hc. fix IH 1. intros [text|text|name cls attrs contents|container text].
  - apply Hs.
  - apply Ho.
  - apply Ht. induction contents as [|c contents IHc]; constructor; [apply IH | exact IHc].
  - apply Hc.
Qed.

Lemma descendants_tag name cls attrs contents :
  Soup.descendants (Soup.Tag name cls attrs contents)
  = flat_map (fun c => c :: Soup.descendants c) contents.
Proof.
  simpl. induction contents as [|c contents IH]; [done|].
  simpl. by rewrite IH.
Qed.

Lemma descendants_trans (a b c : Soup.node) :
  In b (Soup.descendants a) → In c (Soup.descendants b) → In c (Soup.descendants a).
Proof.
  revert b c.
  induction a as [text|text|name cls attrs contents IH|container text] using node_nested_ind;
    intros b c Hb Hc; try (by destruct Hb).
  rewrite descendants_tag in *. apply in_flat_map in Hb as (x & Hx & Hb).
  apply in_flat_map. exists x. split; [done|].
  destruct Hb as [<-|Hb]; [by right|].
  right. rewrite List.Forall_forall in IH. eapply IH; eauto.
Qed.

Lemma find_all_in strainer n t :
  In t (Soup.find_all strainer n) ↔
  In t (Soup.descendants n) ∧ Soup.is_tag t = true ∧ strainer t = true.
Proof.
  unfold Soup.find_all. rewrite filter_In, andb_true_iff. tauto.
Qed.

Lemma find_some strainer n t :
  Soup.find strainer n = Some t →
  In t (Soup.descendants n) ∧ Soup.is_tag t = true ∧ strainer t = true.
Proof.
  unfold Soup.find. intros H. apply find_all_in.
  destruct (Soup.find_all strainer n) as [|x l]; [done|].
  simpl in H. injection H as ->. by left.
Qed.

Lemma find_none strainer n t :
  Soup.find strainer n = None →
  In t (Soup.descendants n) → Soup.is_tag t = true → strainer t = false.
Proof.
  unfold Soup.find. intros H Hin Htag.
  destruct (strainer t) eqn:Hs; [|done].
  assert (In t (Soup.find_all strainer n)) as Hf by by apply find_all_in.
  destruct (Soup.find_all strainer n); [destruct Hf | done].
Qed.

Lemma find_is_some strainer n t :
  In t (Soup.descendants n) → Soup.is_tag t = true → strainer t = true →
  ∃ t', Soup.find strainer n = Some t'.
Proof.
  intros Hin Htag Hs. destruct (Soup.find strainer n) as [t'|] eqn:Hf; [by exists t'|].
  by rewrite (find_none _ _ _ Hf Hin Htag) in Hs.
Qed.

(** bs4's test of [class_='c'] passes only on tags that have class [c],
    for a class name without a space. *)
Lemma class_is_has_class (c : string) (t : Soup.node) :
  Py.chr_in " " c = false → Url.nonempty c = true →
  Soup.class_is c t = true → Soup.has_class c t = true.
Proof.
  intros Hsp Hne. destruct t as [|?|name [tokens|] attrs contents|]; try done.
  unfold Soup.class_is, Soup.class_matches, Soup.has_class, Url.mem.
  intros [H|H]%orb_true_iff.
  - apply existsb_exists in H as (x & Hx & ->%String.eqb_eq).
    apply existsb_exists. exists c. by rewrite String.eqb_refl.
  - apply String.eqb_eq in H. apply join_space_inv in H as ->; [|done..].
    simpl. by rewrite String.eqb_refl.
Qed.

Lemma no_class_no_find (c : string) (strainer : Soup.node → bool) (n : Soup.node) :
  Py.chr_in " " c = false → Url.nonempty c = true →
  (∀ t, In t (Soup.descendants n) → Soup.has_class c t = false) →
  (∀ t, strainer t = true → Soup.class_is c t = true) →
  Soup.find strainer n = None.
Proof.
  intros Hsp Hne Hno Hstr.
  destruct (Soup.find _ n) as [t|] eqn:Hf; [|done].
  apply find_some in Hf as (Hin & _ & Hc%Hstr).
  apply class_is_has_class in Hc; [|done..]. by rewrite (Hno _ Hin) in Hc.
Qed.

Lemma select_child_tag pn pc cn name cls attrs contents :
  Soup.select_child pn pc cn (Soup.Tag name cls attrs contents)
  = flat_map
      (fun c =>
         (if Soup.named [pn] (Soup.Tag name cls attrs [])
             && Soup.has_class pc (Soup.Tag name cls attrs []) && Soup.named [cn] c
          then [c] else [])
         ++ Soup.select_child pn pc cn c)
      contents.
Proof.
  induction contents as [|c contents IH]; [reflexivity|].
  change (Soup.select_child pn pc cn (Soup.Tag name cls attrs (c :: contents)))
    with ((if Soup.named [pn] (Soup.Tag name cls attrs [])
              && Soup.has_class pc (Soup.Tag name cls attrs []) && Soup.named [cn] c
           then [c] else [])
          ++ Soup.select_child pn pc cn c
          ++ Soup.select_child pn pc cn (Soup.Tag name cls attrs contents)).
  rewrite IH. simpl. by rewrite <- app_assoc.
Qed.

Lemma select_child_parent pn pc cn (n x : Soup.node) :
  In x (Soup.select_child pn pc cn n) →
  ∃ t, In t (n :: Soup.descendants n) ∧ Soup.has_class pc t = true.
Proof.
  revert x.
  induction n as [text|text|name cls attrs contents IH|container text] using node_nested_ind;
    intros x Hx; try (by destruct Hx).
  destruct (Soup.has_class pc (Soup.Tag name cls attrs contents)) eqn:Hpc.
  { eexists. split; [by left | done]. }
  rewrite select_child_tag in Hx. apply in_flat_map in Hx as (c & Hc & Hx).
  change (Soup.has_class pc (Soup.Tag name cls attrs []))
    with (Soup.has_class pc (Soup.Tag name cls attrs contents)) in Hx.
  rewrite Hpc, andb_false_r in Hx. simpl in Hx.
  rewrite List.Forall_forall in IH. destruct (IH c Hc x Hx) as (t & Ht & Hcls).
  exists t. split; [|done]. right. rewrite descendants_tag.
  apply in_flat_map. exists c. split; [done|]. exact Ht.
Qed.

(** ** The author cascade *)

(** When no tag of the document passes the byline-name test, none passes
    it below any tag of the document either. *)
Lemma byline_name_lookup_fails (article_soup d : Soup.node) :
  Soup.find (Soup.class_is "c-article-byline__name") article_soup = None →
  In d (Soup.descendants article_soup) →
  Soup.find (fun t => Soup.named ["span"] t && Soup.class_is "c-article-byline__name" t) d
  = None.
Proof.
  intros Hnone Hd.
  destruct (Soup.find _ d) as [author_span|] eqn:Hf; [|done].
  apply find_some in Hf as (Hin & Htag & [_ Hcls]%andb_true_iff).
  pose proof (descendants_trans _ _ _ Hd Hin) as Hin'.
  by rewrite (find_none _ _ _ Hnone Hin' Htag) in Hcls.
Qed.

(** C10. The author cascade of the script gives, on every document, the
    author that the cascade without its third step gives: the third step
    looks below the byline container for the class the first step looked for
    in the whole document, so it finds nothing whenever it is reached. *)
Theorem author_cascade_third_step_never_matches (article_soup : Soup.node) :
  extract_author article_soup = extract_author_without_step3 article_soup.
Proof.
  unfold extract_author, extract_author_without_step3.
  destruct (Soup.find (Soup.class_is _) article_soup) as [author_tag|] eqn:Hfirst; [done|].
  assert (author_from_byline article_soup
          = match Soup.find (fun t => Soup.named ["div"] t && Soup.class_is "c-article-byline" t)
                            article_soup with
            | Some byline_div =>
                match Soup.find (fun t => Soup.named ["a"] t && Soup.class_is "u-hover-underline" t)
                                byline_div with
                | Some other_author_element => Soup.get_text_strip other_author_element
                | None => NA
                end
            | None => NA
            end) as ->; [|done].
  unfold author_from_byline.
  destruct (Soup.find (fun t => Soup.named ["div"] t && _) article_soup)
    as [byline_div|] eqn:Hdiv; [|done].
  apply find_some in Hdiv as (Hin & _ & _).
  by rewrite (byline_name_lookup_fails _ _ Hfirst Hin).
Qed.

Lemma meta_author_cascade (article_soup m : Soup.node) (name : string) :
  (∀ t, In t (Soup.descendants article_soup) →
        Soup.has_class "c-article-byline__name" t = false) →
  In m (Soup.descendants article_soup) →
  Soup.named ["meta"] m = true →
  Soup.attr_is "name" "author" m = true →
  (∀ t, In t (Soup.descendants article_soup) →
        Soup.named ["meta"] t = true → Soup.attr_is "name" "author" t = true →
        Soup.get "content" t = Some name) →
  extract_author article_soup = name.
Proof.
  intros Hnoclass Hin Hmeta Hname Hall. unfold extract_author.
  rewrite (no_class_no_find "c-article-byline__name"); [|done..].
  assert (Soup.is_tag m = true) as Htag by (by destruct m).
  destruct (find_is_some (fun t => Soup.named ["meta"] t && Soup.attr_is "name" "author" t)
              _ _ Hin Htag) as [m' Hm']; [by rewrite Hmeta, Hname|].
  rewrite Hm'. apply find_some in Hm' as (Hin' & _ & [Hmeta' Hname']%andb_true_iff).
  by rewrite (Hall _ Hin' Hmeta' Hname').
Qed.

(** In a document where no tag has the class [c-article-byline__name]
    and that contains a [meta] tag with [name="author"], the author [meta]
    tags of the document carrying [content="Jane Doe"], the extracted author
    is exactly ["Jane Doe"]. *)
Lemma meta_author_jane_doe (article_soup m : Soup.node) :
  (∀ t, In t (Soup.descendants article_soup) →
        Soup.has_class "c-article-byline__name" t = false) →
  In m (Soup.descendants article_soup) →
  Soup.named ["meta"] m = true →
  Soup.attr_is "name" "author" m = true →
  (∀ t, In t (Soup.descendants article_soup) →
        Soup.named ["meta"] t = true → Soup.attr_is "name" "author" t = true →
        Soup.get "content" t = Some "Jane Doe") →
  extract_author article_soup = "Jane Doe".
Proof. apply meta_author_cascade. Qed.

(** C6, as the code has it. In a document where no tag has the class
    [c-article-byline__name] and whose first [meta] tag with [name="author"],
    in document order, carries [content="Jane Doe"], the extracted author is
    exactly ["Jane Doe"]: [find] returns the first such tag, whatever other
    author [meta] tags follow it. *)
Theorem first_author_meta_is_extracted (article_soup m : Soup.node) (others : list Soup.node) :
  (∀ t, In t (Soup.descendants article_soup) →
        Soup.has_class "c-article-byline__name" t = false) →
  Soup.find_all (fun t => Soup.named ["meta"] t && Soup.attr_is "name" "author" t) article_soup
  = m :: others →
  Soup.get "content" m = Some "Jane Doe" →
  extract_author article_soup = "Jane Doe".
Proof.
  intros Hnoclass Hmetas Hcontent. unfold extract_author.
  rewrite (no_class_no_find "c-article-byline__name"); [|done..].
  unfold Soup.find. rewrite Hmetas. cbn [head]. by rewrite Hcontent.
Qed.

(** C6 fails as it is stated.  This document has no tag of the byline-name
    class and contains [<meta name="author" content="Jane Doe">], after
    another author [meta] tag: the extracted author is ["John Roe"]. *)
Lemma author_meta_need_not_be_the_first :
  ¬ (∀ article_soup m : Soup.node,
       (∀ t, In t (Soup.descendants article_soup) →
             Soup.has_class "c-article-byline__name" t = false) →
       In m (Soup.descendants article_soup) →
       Soup.named ["meta"] m = true →
       Soup.attr_is "name" "author" m = true →
       Soup.get "content" m = Some "Jane Doe" →
       extract_author article_soup = "Jane Doe").
Proof.
  intros Hclaim.
  assert (extract_author Examples.two_author_metas = "Jane Doe") as Habsurd.
  { apply (Hclaim Examples.two_author_metas
             (Soup.Tag "meta" None {["name" := "author"; "content" := "Jane Doe"]} [])).
    - intros t Hin. pose proof I as Hpre. each_node Hin Hpre.
    - vm_compute. auto.
    - reflexivity.
    - reflexivity.
    - reflexivity. }
  vm_compute in Habsurd. discriminate Habsurd.
Qed.

(** ** The content cascade *)

(** C7, as the code has it. In a document where no tag has the class
    [c-article-content] or [c-article__body], and whose first [article]
    element, in document order, has below it exactly two [p] tags with the
    texts ["A."] and ["B."] in this order, the extracted content is ["A."], a
    newline, ["B."]. *)
Theorem generic_article_two_paragraphs (article_soup art p1 p2 : Soup.node) :
  (∀ t, In t (article_soup :: Soup.descendants article_soup) →
        Soup.has_class "c-article-content" t = false) →
  (∀ t, In t (Soup.descendants article_soup) →
        Soup.has_class "c-article__body" t = false) →
  Soup.find (Soup.named ["article"]) article_soup = Some art →
  Soup.find_all (Soup.named ["p"]) art = [p1; p2] →
  Soup.get_text_strip p1 = "A." →
  Soup.get_text_strip p2 = "B." →
  extract_content article_soup = "A." +:+ newline +:+ "B.".
Proof.
  intros Hprimary Hbody Hart Hps Hp1 Hp2. unfold extract_content.
  destruct (Soup.select_child "div" "c-article-content" "p" article_soup) as [|x l] eqn:Hsel.
  - simpl. rewrite (no_class_no_find "c-article__body"); [|try done..].
    + rewrite Hart, Hps. simpl. unfold join_paragraphs. simpl. by rewrite Hp1, Hp2.
    + by intros t [_ ?]%andb_true_iff.
  - exfalso. destruct (select_child_parent "div" "c-article-content" "p" article_soup x)
      as (t & Ht & Hcls); [rewrite Hsel; by left|].
    by rewrite (Hprimary _ Ht) in Hcls.
Qed.

(** C7 fails as it is stated.  This document has no tag of either container
    class and contains an [article] element with exactly two [p] children,
    ["A."] and ["B."], after an empty [article] element: [find('article')]
    returns the empty one and the content stays ["N/A"]. *)
Lemma article_need_not_be_the_first :
  ¬ (∀ (article_soup p1 p2 : Soup.node) (cls : option (list string))
       (attrs : gmap string string),
       (∀ t, In t (article_soup :: Soup.descendants article_soup) →
             Soup.has_class "c-article-content" t = false) →
       (∀ t, In t (Soup.descendants article_soup) →
             Soup.has_class "c-article__body" t = false) →
       In (Soup.Tag "article" cls attrs [p1; p2]) (Soup.descendants article_soup) →
       Soup.named ["p"] p1 = true →
       Soup.named ["p"] p2 = true →
       Soup.get_text_strip p1 = "A." →
       Soup.get_text_strip p2 = "B." →
       extract_content article_soup = "A." +:+ newline +:+ "B.").
Proof.
  intros Hclaim.
  assert (extract_content Examples.two_articles = "A." +:+ newline +:+ "B.") as Habsurd.
  { apply (Hclaim Examples.two_articles (Examples.paragraph "A.") (Examples.paragraph "B.")
             None ∅).
    - intros t Hin. pose proof I as Hpre. each_node Hin Hpre.
    - intros t Hin. pose proof I as Hpre. each_node Hin Hpre.
    - vm_compute. auto.
    - reflexivity.
    - reflexivity.
    - reflexivity.
    - reflexivity. }
  vm_compute in Habsurd. discriminate Habsurd.
Qed.

(** A [p] tag deeper inside the [article] element is taken too: [find_all]
    looks at all the tags below it, not at its children alone. *)
Lemma nested_paragraph_is_taken :
  extract_content Examples.nested_paragraph_article
  = "A." +:+ newline +:+ "B." +:+ newline +:+ "C.".
Proof. reflexivity. Qed.

(** [get_text] on a [script] element reports the script's own text, and on
    another element leaves the text of a script inside it out. *)
Lemma script_text_is_reported_to_the_script_only :
  extract_author (Examples.document [Examples.script_byline]) = "Jane"
  ∧ Soup.get_text_strip Examples.paragraph_with_script = "A.".
Proof. split; reflexivity. Qed.

(** ** The article loop *)

Lemma process_link_data (w : world) (link : string) (e : extractor_state) :
  article_data (process_link w link e)
  = article_data e ++ match record_of w link with Some r => [r] | None => [] end.
Proof.
  unfold process_link, record_of.
  destruct (requests_get w link); simpl; by rewrite ?app_nil_r.
Qed.

Lemma process_link_effects (w : world) (link : string) (e : extractor_state) :
  effects (process_link w link e) = effects e ++ link_events w link.
Proof.
  unfold process_link, link_events.
  destruct (requests_get w link); simpl; by rewrite <- ?app_assoc.
Qed.

Lemma article_loop_data (w : world) (links_to_process : list string) (e : extractor_state) :
  article_data (article_loop w links_to_process e)
  = article_data e ++ omap (record_of w) links_to_process.
Proof.
  revert e. induction links_to_process as [|link rest IH]; intros e; simpl.
  - by rewrite app_nil_r.
  - unfold article_loop in *. simpl. rewrite IH, process_link_data, <- app_assoc.
    by destruct (record_of w link).
Qed.

Lemma article_loop_effects (w : world) (links_to_process : list string) (e : extractor_state) :
  effects (article_loop w links_to_process e)
  = effects e ++ flat_map (link_events w) links_to_process.
Proof.
  revert e. induction links_to_process as [|link rest IH]; intros e; simpl.
  - by rewrite app_nil_r.
  - unfold article_loop in *. simpl. by rewrite IH, process_link_effects, <- app_assoc.
Qed.

Lemma record_of_url (w : world) (link : string) (r : ArticleRecord) :
  record_of w link = Some r → url r = link ∧ failed (requests_get w link) = false.
Proof.
  unfold record_of. destruct (requests_get w link); intros [= <-]; done.
Qed.

Lemma omap_record_length (w : world) (l : list string) :
  length (omap (record_of w) l) ≤ length l.
Proof.
  induction l as [|link l IH]; cbn; [lia|].
  destruct (record_of w link); cbn; lia.
Qed.

Lemma omap_record_length_failed (w : world) (l : list string) (link : string) :
  In link l → failed (requests_get w link) = true →
  length (omap (record_of w) l) < length l.
Proof.
  intros Hin Hf. induction l as [|x l IH]; [destruct Hin|].
  cbn. destruct Hin as [->|Hin].
  - unfold record_of at 1. pose proof (omap_record_length w l).
    destruct (requests_get w link); cbn in *; lia || discriminate.
  - specialize (IH Hin). destruct (record_of w x); cbn; lia.
Qed.

Lemma omap_record_firstn (w : world) (k : nat) (l : list string) :
  length (omap (record_of w) (firstn k l)) ≤ length (omap (record_of w) l).
Proof.
  revert k. induction l as [|x l IH]; intros [|k]; cbn; try lia.
  specialize (IH k). destruct (record_of w x); cbn; lia.
Qed.

(** ** The record of a parsed article *)

Lemma select_child_in pn pc cn (n x : Soup.node) :
  In x (Soup.select_child pn pc cn n) →
  In x (Soup.descendants n) ∧ Soup.named [cn] x = true.
Proof.
  revert x.
  induction n as [text|text|name cls attrs contents IH|container text] using node_nested_ind;
    intros x Hx; try (by destruct Hx).
  rewrite select_child_tag in Hx. apply in_flat_map in Hx as (c & Hc & Hx).
  rewrite descendants_tag, in_flat_map.
  apply in_app_iff in Hx as [Hx|Hx].
  - destruct (_ && Soup.named [cn] c) eqn:Hok; [|destruct Hx].
    destruct Hx as [<-|[]]. apply andb_true_iff in Hok as [_ Hok].
    split; [|done]. exists c. split; [done | by left].
  - rewrite List.Forall_forall in IH. destruct (IH c Hc x Hx) as [Hin Hnamed].
    split; [|done]. exists c. split; [done | by right].
Qed.

Lemma named_is_tag names (t : Soup.node) : Soup.named names t = true → Soup.is_tag t = true.
Proof. by destruct t. Qed.

Lemma find_without_tags strainer (n : Soup.node) :
  (∀ t, In t (Soup.descendants n) → Soup.is_tag t = false) → Soup.find strainer n = None.
Proof.
  intros Hno. destruct (Soup.find strainer n) as [t|] eqn:Hf; [|done].
  apply find_some in Hf as (Hin & Htag & _). by rewrite (Hno _ Hin) in Htag.
Qed.

Lemma title_from_document (article_soup : Soup.node) :
  extract_title article_soup = NA ∨
  ∃ t, In t (Soup.descendants article_soup) ∧ extract_title article_soup = Soup.get_text_strip t.
Proof.
  unfold extract_title. case_find t Hf; [|by left].
  right. exists t. by apply find_some in Hf as (? & _ & _).
Qed.

Lemma byline_author_from_document (article_soup : Soup.node) :
  author_from_byline article_soup = NA ∨
  ∃ t, In t (Soup.descendants article_soup)
       ∧ author_from_byline article_soup = Soup.get_text_strip t.
Proof.
  unfold author_from_byline.
  case_find byline_div Hdiv; [|by left].
  apply find_some in Hdiv as (Hin & _ & _).
  case_find t Hspan.
  { right. exists t. apply find_some in Hspan as (? & _ & _).
    split; [by eapply descendants_trans | done]. }
  case_find t Ha; [|by left].
  right. exists t. apply find_some in Ha as (? & _ & _).
  split; [by eapply descendants_trans | done].
Qed.

Lemma author_from_document (article_soup : Soup.node) :
  extract_author article_soup = NA ∨
  ∃ t, In t (Soup.descendants article_soup)
       ∧ (extract_author article_soup = Soup.get_text_strip t
          ∨ Soup.get "content" t = Some (extract_author article_soup)).
Proof.
  pose proof (byline_author_from_document article_soup) as Hbyline.
  assert (author_from_byline article_soup = NA ∨
          ∃ t, In t (Soup.descendants article_soup)
               ∧ (author_from_byline article_soup = Soup.get_text_strip t
                  ∨ Soup.get "content" t = Some (author_from_byline article_soup))) as Hb.
  { destruct Hbyline as [?|(t & ? & ?)]; [by left | right; exists t; auto]. }
  unfold extract_author.
  case_find t Hfirst.
  { right. exists t. apply find_some in Hfirst as (? & _ & _). auto. }
  case_find m Hmeta; [|done].
  destruct (Soup.get "content" m) as [meta_content|] eqn:Hcontent; [|done].
  right. exists m. apply find_some in Hmeta as (? & _ & _). auto.
Qed.

Lemma date_from_document (article_soup : Soup.node) :
  extract_publication_date article_soup = NA ∨
  ∃ t, In t (Soup.descendants article_soup)
       ∧ (extract_publication_date article_soup = Soup.get_text_strip t
          ∨ Soup.get "content" t = Some (extract_publication_date article_soup)
          ∨ Soup.get "datetime" t = Some (extract_publication_date article_soup)).
Proof.
  assert (date_from_span article_soup = NA ∨
          ∃ t, In t (Soup.descendants article_soup)
               ∧ (date_from_span article_soup = Soup.get_text_strip t
                  ∨ Soup.get "content" t = Some (date_from_span article_soup)
                  ∨ Soup.get "datetime" t = Some (date_from_span article_soup))) as Hspan.
  { unfold date_from_span. case_find t Hf; [|by left].
    right. exists t. apply find_some in Hf as (? & _ & _). auto. }
  assert (date_from_meta article_soup = NA ∨
          ∃ t, In t (Soup.descendants article_soup)
               ∧ (date_from_meta article_soup = Soup.get_text_strip t
                  ∨ Soup.get "content" t = Some (date_from_meta article_soup)
                  ∨ Soup.get "datetime" t = Some (date_from_meta article_soup))) as Hmeta.
  { unfold date_from_meta.
    destruct (or_else _ _) as [m|] eqn:Hor; [|done].
    destruct (Soup.get "content" m) as [meta_content|] eqn:Hcontent; [|done].
    right. exists m. split; [|auto].
    unfold or_else in Hor.
    destruct (Soup.find (fun t => Soup.named ["meta"] t && Soup.attr_is "property" _ t) _)
      as [m1|] eqn:H1.
    - injection Hor as ->. by apply find_some in H1 as (? & _ & _).
    - by apply find_some in Hor as (? & _ & _). }
  unfold extract_publication_date.
  case_find t Htime; [|done].
  destruct (Soup.get "datetime" t) as [datetime|] eqn:Hdt; [|done].
  right. exists t. apply find_some in Htime as (? & _ & _). auto.
Qed.

Lemma content_from_document (article_soup : Soup.node) :
  extract_content article_soup = NA ∨
  ∃ content_paragraphs,
    content_paragraphs ≠ []
    ∧ (∀ p, In p content_paragraphs →
            In p (Soup.descendants article_soup) ∧ Soup.named ["p"] p = true)
    ∧ extract_content article_soup = join_paragraphs content_paragraphs.
Proof.
  assert (∀ d, In d (Soup.descendants article_soup) →
               (if negb (is_empty (Soup.find_all (Soup.named ["p"]) d))
                then join_paragraphs (Soup.find_all (Soup.named ["p"]) d) else NA) = NA ∨
               ∃ ps, ps ≠ [] ∧
                     (∀ p, In p ps → In p (Soup.descendants article_soup)
                                     ∧ Soup.named ["p"] p = true) ∧
                     (if negb (is_empty (Soup.find_all (Soup.named ["p"]) d))
                      then join_paragraphs (Soup.find_all (Soup.named ["p"]) d) else NA)
                     = join_paragraphs ps) as Hbelow.
  { intros d Hd. destruct (Soup.find_all (Soup.named ["p"]) d) as [|p ps] eqn:Hps; [by left|].
    right. exists (p :: ps). split; [done|]. split; [|done].
    intros q Hq. rewrite <- Hps in Hq. apply find_all_in in Hq as (Hq & _ & Hnamed).
    split; [by eapply descendants_trans | done]. }
  unfold extract_content.
  destruct (Soup.select_child "div" "c-article-content" "p" article_soup) as [|p ps] eqn:Hsel.
  - simpl.
    case_find body Hbody.
    { apply Hbelow. by apply find_some in Hbody as (? & _ & _). }
    case_find art Hart; [|by left].
    apply Hbelow. by apply find_some in Hart as (? & _ & _).
  - right. exists (p :: ps). split; [done|]. split; [|done].
    intros q Hq. rewrite <- Hsel in Hq. by apply select_child_in in Hq.
Qed.

Lemma record_without_tags (link : string) (article_soup : Soup.node) :
  (∀ t, In t (Soup.descendants article_soup) → Soup.is_tag t = false) →
  make_record link article_soup = mkRecord link NA NA NA NA.
Proof.
  intros Hno. unfold make_record.
  assert (extract_title article_soup = NA) as ->.
  { unfold extract_title. by rewrite find_without_tags. }
  assert (extract_author article_soup = NA) as ->.
  { unfold extract_author, author_from_byline. by rewrite !find_without_tags. }
  assert (extract_publication_date article_soup = NA) as ->.
  { unfold extract_publication_date, date_from_meta, date_from_span.
    by rewrite !find_without_tags. }
  assert (extract_content article_soup = NA) as ->; [|done].
  unfold extract_content.
  destruct (Soup.select_child "div" "c-article-content" "p" article_soup) as [|p ps] eqn:Hsel.
  - simpl. by rewrite !find_without_tags.
  - assert (In p (Soup.select_child "div" "c-article-content" "p" article_soup)) as Hp
      by (rewrite Hsel; by left).
    apply select_child_in in Hp as [Hin Hnamed%named_is_tag]. by rewrite (Hno _ Hin) in Hnamed.
Qed.

(** C4. When the request for an article succeeds and its page is parsed,
    the turn appends exactly one record to [article_data].  The record has
    the link as its [url] and a string in each of the other four fields:
    ["N/A"], or a text or attribute value of a tag of the document (for the
    content, the texts of [p] tags of the document joined by newlines).  It
    is appended whatever the selectors find: on a document without a single
    tag it is the record with ["N/A"] in all four fields. *)
Theorem parsed_article_appends_full_record
    (w : world) (link : string) (article_soup : Soup.node) (e : extractor_state) :
  requests_get w link = ArticleSoup article_soup →
  ∃ r : ArticleRecord,
    article_data (process_link w link e) = article_data e ++ [r]
    ∧ url r = link
    ∧ (title r = NA ∨
       ∃ t, In t (Soup.descendants article_soup) ∧ title r = Soup.get_text_strip t)
    ∧ (author r = NA ∨
       ∃ t, In t (Soup.descendants article_soup)
            ∧ (author r = Soup.get_text_strip t ∨ Soup.get "content" t = Some (author r)))
    ∧ (publication_date r = NA ∨
       ∃ t, In t (Soup.descendants article_soup)
            ∧ (publication_date r = Soup.get_text_strip t
               ∨ Soup.get "content" t = Some (publication_date r)
               ∨ Soup.get "datetime" t = Some (publication_date r)))
    ∧ (content r = NA ∨
       ∃ content_paragraphs,
         content_paragraphs ≠ []
         ∧ (∀ p, In p content_paragraphs →
                 In p (Soup.descendants article_soup) ∧ Soup.named ["p"] p = true)
         ∧ content r = join_paragraphs content_paragraphs)
    ∧ ((∀ t, In t (Soup.descendants article_soup) → Soup.is_tag t = false) →
       r = mkRecord link NA NA NA NA).
Proof.
  intros Hget. exists (make_record link article_soup).
  split; [unfold process_link; by rewrite Hget|].
  split; [done|].
  split; [apply title_from_document|].
  split; [apply author_from_document|].
  split; [apply date_from_document|].
  split; [apply content_from_document | apply record_without_tags].
Qed.

(** C5. When the request for a link fails (a timeout, an HTTP error status
    such as 404, another request error, an attribute or type error, or any
    other exception), the turn leaves [article_data] as it was; no record of
    the final table has that link as its [url], whatever list of links is
    processed; and the loop goes on: every link of the list is requested. *)
Theorem failed_fetch_leaves_no_record (w : world) (link : string) :
  failed (requests_get w link) = true →
  (∀ e, article_data (process_link w link e) = article_data e)
  ∧ (∀ links_to_process r,
       In r (article_data (scrape_articles w links_to_process)) → url r ≠ link)
  ∧ (∀ links_to_process l,
       In l links_to_process →
       In (RequestsGet l) (effects (scrape_articles w links_to_process))).
Proof.
  intros Hfail. split; [|split].
  - intros e. rewrite process_link_data. unfold record_of.
    destruct (requests_get w link); by rewrite ?app_nil_r.
  - intros ls r Hr Hurl. unfold scrape_articles in Hr. rewrite article_loop_data in Hr.
    simpl in Hr. apply list_elem_of_In, list_elem_of_omap in Hr as (l & _ & Hrec).
    apply record_of_url in Hrec as [Hl Hok]. congruence.
  - intros ls l Hl. unfold scrape_articles. rewrite article_loop_effects. simpl.
    apply in_flat_map. exists l. split; [done | by left].
Qed.

(** C8. At every point of the article loop (after [k] turns, for every
    [k]), in whatever order [list(all_article_links)] lists the gathered
    set, the number of records is at most the number of links in the set,
    and it is smaller when the request for one of the gathered links fails. *)
Theorem records_never_exceed_links (w : world) (links_to_process : list string) (k : nat) :
  let all_links := links (collect_links w) in
  let e := scrape_articles w (firstn k links_to_process) in
  links_to_process ≡ₚ elements all_links →
  length (article_data e) ≤ size all_links
  ∧ ((∃ link, link ∈ all_links ∧ failed (requests_get w link) = true) →
     length (article_data e) < size all_links).
Proof.
  intros all_links e Hperm. subst e. unfold scrape_articles. rewrite article_loop_data. simpl.
  change (size all_links) with (length (elements all_links)).
  rewrite <- (Permutation_length Hperm).
  pose proof (omap_record_firstn w k links_to_process) as Hk.
  split.
  - pose proof (omap_record_length w links_to_process). lia.
  - intros (link & Hin & Hfail).
    apply elem_of_elements in Hin. rewrite <- Hperm in Hin. apply list_elem_of_In in Hin.
    pose proof (omap_record_length_failed w _ _ Hin Hfail). lia.
Qed.

(** C9. The article loop at the links [link_a], [link_b], the first of
    which answers 404: the second request follows the first at once; the
    only sleep of the run follows the second, successful one. *)
Theorem failed_request_is_followed_by_no_sleep :
  effects (scrape_articles Examples.gone_world [Examples.link_a; Examples.link_b])
  = [RequestsGet Examples.link_a; RequestsGet Examples.link_b;
     TimeSleep article_request_delay].
Proof. reflexivity. Qed.

(** ** The link filter *)

Lemma for_each_reached_inv {A S : Type} (I : S → Prop) (body : A → S → flow S) :
  (∀ x s, I s → I (reached (body x s))) →
  ∀ l s, I s → I (reached (for_each body l s)).
Proof.
  intros Hbody l. induction l as [|x l IH]; intros s Hs; [done|].
  simpl. specialize (Hbody x s Hs). destruct (body x s); simpl in *; auto.
Qed.

Lemma for_each_shape {A S : Type} (R : S → S → Prop) (body : A → S → flow S) :
  (∀ x s1 s2, R s1 s2 →
     completed (body x s1) = completed (body x s2)
     ∧ R (reached (body x s1)) (reached (body x s2))) →
  ∀ l s1 s2, R s1 s2 →
    completed (for_each body l s1) = completed (for_each body l s2)
    ∧ R (reached (for_each body l s1)) (reached (for_each body l s2)).
Proof.
  intros Hbody l. induction l as [|x l IH]; intros s1 s2 HR; [done|].
  simpl. destruct (Hbody x s1 s2 HR) as [Hc Hr].
  destruct (body x s1), (body x s2); simpl in *; try discriminate; auto.
Qed.

(** Whether a link raises, and what it does to the counter, does not depend
    on the set of links. *)
Lemma visit_link_shape (w : world) (link_element : Soup.node) (s1 s2 : scan_state) :
  page_links_found s1 = page_links_found s2 →
  completed (visit_link w link_element s1) = completed (visit_link w link_element s2)
  ∧ page_links_found (reached (visit_link w link_element s1))
    = page_links_found (reached (visit_link w link_element s2)).
Proof.
  intros Heq. unfold visit_link.
  destruct (Soup.get "href" link_element) as [href|]; [|done].
  destruct (_ && (1 <? String.length href)); [|done].
  destruct (Url.urljoin _ base_url href) as [full_url|]; [|done].
  destruct (qualifies full_url); simpl; auto.
Qed.

Lemma scan_page_shape (w : world) (containers : list Soup.node) (l1 l2 : gset string) :
  completed (scan_page w containers l1) = completed (scan_page w containers l2)
  ∧ page_links_found (reached (scan_page w containers l1))
    = page_links_found (reached (scan_page w containers l2)).
Proof.
  unfold scan_page.
  apply (for_each_shape (fun s1 s2 => page_links_found s1 = page_links_found s2)); [|done].
  intros container s1 s2 Heq.
  apply (for_each_shape (fun s1 s2 => page_links_found s1 = page_links_found s2)); [|done].
  intros link_element. apply visit_link_shape.
Qed.

Lemma visit_link_gathered (w : world) (link_element : Soup.node) (s : scan_state) :
  (∀ L, L ∈ all_article_links s → gathered w L) →
  ∀ L, L ∈ all_article_links (reached (visit_link w link_element s)) → gathered w L.
Proof.
  intros Hs. unfold visit_link.
  destruct (Soup.get "href" link_element) as [href|]; [|done].
  destruct (_ && (1 <? String.length href)) eqn:Hcond; [|done].
  destruct (Url.urljoin _ base_url href) as [full_url|] eqn:Hjoin; [|done].
  destruct (qualifies full_url) eqn:Hq; [|done].
  simpl. intros L [->%elem_of_singleton|HL]%elem_of_union; [|by apply Hs].
  apply andb_true_iff in Hcond as [[_ Hslash]%andb_true_iff Hlen%Nat.ltb_lt].
  split; [done|]. by exists href.
Qed.

Lemma scan_page_gathered (w : world) (containers : list Soup.node) (l : gset string) :
  (∀ L, L ∈ l → gathered w L) →
  ∀ L, L ∈ all_article_links (reached (scan_page w containers l)) → gathered w L.
Proof.
  intros Hl. unfold scan_page.
  apply (for_each_reached_inv (fun s => ∀ L, L ∈ all_article_links s → gathered w L)); [|done].
  intros container s Hs.
  apply (for_each_reached_inv (fun s => ∀ L, L ∈ all_article_links s → gathered w L)); [|done].
  intros link_element. apply visit_link_gathered.
Qed.

(** ** One turn of the page loop *)

Lemma scrape_page_shape (w : world) (page_num : nat) (c : collector_state) :
  snd (scrape_page w page_num c) = page_control w page_num
  ∧ trace (fst (scrape_page w page_num c)) = trace c ++ page_events w page_num.
Proof.
  unfold page_control, page_events, scrape_page.
  destruct (driver_get w (page_url page_num)) as [soup| | | |]; try done.
  destruct (is_empty (article_containers soup) && (0 <? page_num)); [done|].
  destruct (is_empty (article_containers soup) && (page_num =? 0)); [done|].
  simpl.
  destruct (scan_page_shape w (article_containers soup) (links c) ∅) as [Hc Hf].
  destruct (scan_page w (article_containers soup) (links c)) as [s1|s1],
           (scan_page w (article_containers soup) ∅) as [s2|s2];
    simpl in *; try discriminate; [|done].
  rewrite Hf. destruct ((page_links_found s2 =? 0) && (0 <? page_num)); simpl; [done|].
  by rewrite <- app_assoc.
Qed.

Lemma scrape_page_control (w : world) (page_num : nat) (c : collector_state) :
  snd (scrape_page w page_num c) = page_control w page_num.
Proof. apply scrape_page_shape. Qed.

Lemma scrape_page_trace (w : world) (page_num : nat) (c : collector_state) :
  trace (fst (scrape_page w page_num c)) = trace c ++ page_events w page_num.
Proof. apply scrape_page_shape. Qed.

Lemma scrape_page_gathered (w : world) (page_num : nat) (c : collector_state) :
  (∀ L, L ∈ links c → gathered w L) →
  ∀ L, L ∈ links (fst (scrape_page w page_num c)) → gathered w L.
Proof.
  intros Hc. unfold scrape_page.
  destruct (driver_get w (page_url page_num)) as [soup| | | |]; try done.
  destruct (is_empty (article_containers soup) && (0 <? page_num)); [done|].
  destruct (is_empty (article_containers soup) && (page_num =? 0)); [done|].
  pose proof (scan_page_gathered w (article_containers soup) _ Hc) as Hscan.
  simpl in Hscan.
  destruct (scan_page w (article_containers soup) _) as [s|s]; simpl in *; [|done].
  by destruct ((page_links_found s =? 0) && (0 <? page_num)).
Qed.

(** the turn for a page starts with the load of its URL; a sleep may follow,
    and none does when the turn breaks the loop *)
Lemma page_events_head (w : world) (page_num : nat) :
  ∃ tl, page_events w page_num = DriverGet (page_url page_num) :: tl
        ∧ (tl = [] ∨ tl = [TimeSleep request_delay])
        ∧ (page_control w page_num = Break → tl = []).
Proof.
  unfold page_events, page_control, scrape_page.
  destruct (driver_get w (page_url page_num)) as [soup| | | |];
    try (exists []; simpl; by auto).
  destruct (is_empty (article_containers soup) && (0 <? page_num)); [exists []; by auto|].
  destruct (is_empty (article_containers soup) && (page_num =? 0)); [exists []; by auto|].
  simpl. destruct (scan_page w (article_containers soup) ∅) as [s|s]; [|exists []; by auto].
  destruct ((page_links_found s =? 0) && (0 <? page_num)); [exists []; by auto|].
  exists [TimeSleep request_delay]. simpl. split; [done|]. split; [by right | done].
Qed.

(** ** The page loop *)

Lemma page_loop_trace (w : world) (page_nums : list nat) (c : collector_state) :
  trace (page_loop w page_nums c) = trace c ++ flat_map (page_events w) (visited w page_nums).
Proof.
  revert c. induction page_nums as [|n rest IH]; intros c; simpl.
  - by rewrite app_nil_r.
  - pose proof (scrape_page_control w n c) as Hctl.
    pose proof (scrape_page_trace w n c) as Htr.
    destruct (scrape_page w n c) as [c' ctl]. simpl in *. subst ctl.
    destruct (page_control w n); simpl.
    + by rewrite IH, Htr, <- app_assoc.
    + by rewrite Htr, app_nil_r.
Qed.

Lemma page_loop_gathered (w : world) (page_nums : list nat) (c : collector_state) :
  (∀ L, L ∈ links c → gathered w L) →
  ∀ L, L ∈ links (page_loop w page_nums c) → gathered w L.
Proof.
  revert c. induction page_nums as [|n rest IH]; intros c Hc; [done|].
  simpl. pose proof (scrape_page_gathered w n c Hc) as Hstep.
  destruct (scrape_page w n c) as [c' [|]]; simpl in *; [by apply IH | done].
Qed.

Lemma visited_break (w : world) (page_nums : list nat) (i : nat) :
  In i (visited w page_nums) → page_control w i = Break →
  ∃ pre post, visited w page_nums = pre ++ [i] ∧ page_nums = pre ++ i :: post.
Proof.
  intros Hin Hbreak. induction page_nums as [|n rest IH]; [destruct Hin|].
  simpl in *. destruct (page_control w n) eqn:Hn.
  - destruct Hin as [->|Hin]; [congruence|].
    destruct (IH Hin) as (pre & post & -> & ->). by exists (n :: pre), post.
  - destruct Hin as [->|[]]. by exists [], rest.
Qed.

Lemma visited_sublist (w : world) (page_nums : list nat) (i : nat) :
  In i (visited w page_nums) → In i page_nums.
Proof.
  induction page_nums as [|n rest IH]; [done|].
  simpl. intros [->|Hin]; [by left|]. right.
  destruct (page_control w n); [by apply IH | destruct Hin].
Qed.

Lemma seq_before (pre post : list nat) (a len i : nat) :
  seq a len = pre ++ i :: post → ∀ j, In j pre → j < i.
Proof.
  revert a len. induction pre as [|p pre IH]; intros a len Hseq j Hj; [destruct Hj|].
  destruct len as [|len]; [discriminate|]. simpl in Hseq. injection Hseq as <- Hseq.
  destruct Hj as [<-|Hj]; [|by eapply IH].
  assert (In i (seq (S a) len)) as Hi by (rewrite Hseq; apply in_elt).
  apply in_seq in Hi. lia.
Qed.

(** ** The URL of a page tells its number *)

Lemma append_inv_head (p a b : string) : p +:+ a = p +:+ b → a = b.
Proof. induction p as [|c p IH]; simpl; [done|]. intros [= H]. by apply IH. Qed.

Lemma str_of_nat_inj (i j : nat) : Py.str_of_nat i = Py.str_of_nat j → i = j.
Proof.
  unfold Py.str_of_nat. intros H.
  apply (f_equal NilEmpty.uint_of_string) in H. rewrite !NilEmpty.usu in H.
  injection H as H. apply (f_equal Nat.of_uint) in H.
  by rewrite !DecimalNat.Unsigned.of_to in H.
Qed.

Lemma page_url_inj (i j : nat) : page_url i = page_url j → i = j.
Proof.
  unfold page_url. destruct (0 <? i) eqn:Hi, (0 <? j) eqn:Hj; intros H.
  - apply append_inv_head in H. apply (append_inv_head "?page=") in H.
    by apply str_of_nat_inj.
  - change base_url with (base_url +:+ "") in H at 2.
    by apply append_inv_head in H.
  - change base_url with (base_url +:+ "") in H at 1.
    by apply append_inv_head in H.
  - apply Nat.ltb_ge in Hi, Hj. lia.
Qed.

Lemma driver_get_visited (w : world) (page_nums : list nat) (i : nat) :
  In (DriverGet (page_url i)) (flat_map (page_events w) (visited w page_nums)) →
  In i (visited w page_nums).
Proof.
  intros (n & Hn & Hev)%in_flat_map.
  destruct (page_events_head w n) as (tl & Heq & Htl & _). rewrite Heq in Hev.
  destruct Hev as [[= Hurl]|Hev].
  - apply page_url_inj in Hurl. by subst.
  - destruct Htl as [->| ->]; [destruct Hev | by destruct Hev].
Qed.

(** ** The gathered links *)

Lemma base_url_parse (check : string → bool) :
  Url.urlparse check base_url ""
  = Some (Url.mkParse "https" "www.euronews.com" "/" "" "" "")
  ∧ base_origin = "https" +:+ "://" +:+ "www.euronews.com".
Proof. split; reflexivity. Qed.

(** Every gathered link passed the filter: it matches the date pattern, it
    contains none of the excluded patterns, and it is the join of the base
    URL with an [href] that starts with a slash. *)
Lemma gathered_links_pass_filter (w : world) (L : string) :
  L ∈ links (collect_links w) →
  re_search article_pattern L = true
  ∧ (∀ pattern, In pattern excluded_patterns → Py.str_in pattern L = false)
  ∧ ∃ href, Py.startswith href "/" = true ∧ 1 < String.length href
            ∧ Url.urljoin (check_bracketed_netloc w) base_url href = Some L.
Proof.
  intros HL. apply page_loop_gathered in HL as [Hq Hhref]; [|by intros ? ?%not_elem_of_empty].
  unfold qualifies in Hq. apply andb_true_iff in Hq as [Hex Hre].
  split; [done|]. split; [|done].
  intros pattern Hp. apply negb_true_iff in Hex.
  destruct (Py.str_in pattern L) eqn:Hin; [|done].
  assert (existsb (fun pattern => Py.str_in pattern L) excluded_patterns = true) as Hyes
    by (apply existsb_exists; eauto).
  congruence.
Qed.

(** *** Scheme and host of a joined link *)

Lemma append_assoc_str (a b c : string) : (a +:+ b) +:+ c = a +:+ (b +:+ c).
Proof.
  induction a as [|x a IH]; [reflexivity|].
  change (String x ((a +:+ b) +:+ c) = String x (a +:+ (b +:+ c))). by rewrite IH.
Qed.

(** A URL put together from a scheme and a host starts with them. *)
Lemma urlunparse_origin sch nl p pa q f :
  Url.nonempty sch = true → Url.nonempty nl = true →
  ∃ rest, Url.urlunparse (Url.mkParse sch nl p pa q f) = sch +:+ "://" +:+ nl +:+ rest.
Proof.
  intros Hs Hn. unfold Url.urlunparse, Url.urlunsplit.
  cbn [Url.s_netloc Url.s_scheme Url.s_path Url.s_query Url.s_fragment
       Url.scheme Url.netloc Url.path Url.params Url.query Url.fragment].
  rewrite Hs, Hn. cbn [orb].
  set (u := if Url.nonempty pa then _ else _).
  set (u' := if Url.nonempty u && _ then _ else _).
  destruct (Url.nonempty q), (Url.nonempty f); rewrite ?append_assoc_str;
    eexists; reflexivity.
Qed.

(** An [href] that starts with a slash carries no scheme of its own, and
    names a host only when, tab, carriage return and line feed taken out, it
    starts with two slashes. *)
Lemma urlsplit_slash (check : string → bool) (rest : string) (r : Url.SplitResult) :
  Url.urlsplit check (String "/" rest) "https" = Some r →
  Url.s_scheme r = "https"
  ∧ (Py.startswith (Url.remove_unsafe (String "/" rest)) "//" = false → Url.s_netloc r = "").
Proof.
  unfold Url.urlsplit.
  change (Py.lstrip Url.WHATWG_C0_CONTROL_OR_SPACE (String "/" rest)) with (String "/" rest).
  change (Url.remove_unsafe (String "/" rest)) with (String "/" (Url.remove_unsafe rest)).
  change (Url.remove_unsafe
            (Py.rstrip_chars Url.WHATWG_C0_CONTROL_OR_SPACE
               (Py.lstrip Url.WHATWG_C0_CONTROL_OR_SPACE "https"))) with "https".
  set (u := Url.remove_unsafe rest).
  assert (Url.split_scheme (String "/" u) "https" = ("https", String "/" u)) as ->.
  { unfold Url.split_scheme. by destruct (Py.find Url.chr_colon (String "/" u)) as [[|i]|]. }
  destruct (String.eqb (Py.take 2 (String "/" u)) "//") eqn:Htwo.
  - destruct (Url.splitnetloc (String "/" u) 2) as [netloc url0].
    destruct (_ || _); [done|]. destruct (_ && negb (check netloc)); [done|].
    intros [= <-].
    destruct (default (url0, "") (Py.split1 Url.chr_hash url0)) as [url1 fragment].
    destruct (default (url1, "") (Py.split1 Url.chr_question url1)) as [url2 query].
    split; [done|]. intros Hstart. exfalso.
    destruct u as [|c u']; [done|].
    destruct c as [[] [] [] [] [] [] [] []]; cbn in Htwo, Hstart; congruence.
  - intros [= <-].
    destruct (default (String "/" u, "") (Py.split1 Url.chr_hash (String "/" u)))
      as [url1 fragment].
    by destruct (default (url1, "") (Py.split1 Url.chr_question url1)) as [url2 query].
Qed.

Lemma urlparse_slash (check : string → bool) (rest : string) (u : Url.ParseResult) :
  Url.urlparse check (String "/" rest) "https" = Some u →
  Url.scheme u = "https"
  ∧ (Py.startswith (Url.remove_unsafe (String "/" rest)) "//" = false → Url.netloc u = "").
Proof.
  unfold Url.urlparse.
  destruct (Url.urlsplit check (String "/" rest) "https") as [r|] eqn:Hsplit; [|done].
  apply urlsplit_slash in Hsplit. simpl.
  destruct (if _ && _ then _ else _) as [url params]. by intros [= <-].
Qed.

(** The join of the base URL with an [href] that starts with a slash starts
    with [https://]; it starts with the scheme and host of the base URL
    unless the [href], tab, carriage return and line feed taken out, starts
    with two slashes. *)
Lemma urljoin_slash (check : string → bool) (href L : string) :
  Py.startswith href "/" = true →
  Url.urljoin check base_url href = Some L →
  Py.startswith L "https://" = true
  ∧ (Py.startswith (Url.remove_unsafe href) "//" = false → Py.startswith L base_origin = true).
Proof.
  intros [rest ->]%startswith_inv. change ("/" +:+ rest) with (String "/" rest).
  unfold Url.urljoin. change (Url.nonempty base_url) with true.
  cbn [negb Url.nonempty]. rewrite (proj1 (base_url_parse check)).
  cbn [mbind option_bind Url.scheme Url.netloc Url.path Url.params Url.query Url.fragment].
  destruct (Url.urlparse check (String "/" rest) "https") as [u|] eqn:Hu; [|done].
  apply urlparse_slash in Hu as [Hscheme Hnetloc].
  destruct u as [sch nl p pa q f].
  cbn [mbind option_bind Url.scheme Url.netloc Url.path Url.params Url.query Url.fragment]
    in *.
  subst sch.
  change (negb (String.eqb "https" "https") || negb (Url.mem "https" Url.uses_relative))
    with false.
  change (Url.mem "https" Url.uses_netloc) with true. cbn [andb].
  assert (∀ p pa q f, ∃ rest,
            Url.urlunparse (Url.mkParse "https" "www.euronews.com" p pa q f)
            = base_origin +:+ rest) as Hbase.
  { intros. by apply (urlunparse_origin "https" "www.euronews.com"). }
  assert (∀ X, Py.startswith (base_origin +:+ X) "https://" = true) as Hhttps.
  { intros X. change (base_origin +:+ X) with ("https://" +:+ ("www.euronews.com" +:+ X)).
    apply startswith_app. }
  destruct (Url.nonempty nl) eqn:Hnl.
  - intros [= <-]. destruct (urlunparse_origin "https" nl p pa q f) as [tl ->]; [done..|].
    split.
    + change ("https" +:+ "://" +:+ nl +:+ tl) with ("https://" +:+ (nl +:+ tl)).
      apply startswith_app.
    + intros Hno. by rewrite (Hnetloc Hno) in Hnl.
  - destruct (negb (Url.nonempty p) && negb (Url.nonempty pa)); intros [= <-].
    + destruct (Hbase "/" "" (if negb (Url.nonempty q) then "" else q) f) as [tl ->].
      split; [apply Hhttps | intros _; apply startswith_app].
    + match goal with
      | |- context [Url.urlunparse (Url.mkParse _ _ ?x pa q f)] =>
          destruct (Hbase x pa q f) as [tl ->]
      end.
      split; [apply Hhttps | intros _; apply startswith_app].
Qed.

(** Every gathered link starts with [https://], and with the scheme and host
    of the base URL unless its [href] starts with two slashes. *)
Lemma gathered_links_scheme_and_host (w : world) (L : string) :
  L ∈ links (collect_links w) →
  Py.startswith L "https://" = true
  ∧ (Py.startswith L base_origin = true
     ∨ ∃ href, Py.startswith (Url.remove_unsafe href) "//" = true
               ∧ Url.urljoin (check_bracketed_netloc w) base_url href = Some L).
Proof.
  intros (_ & _ & href & Hslash & _ & Hjoin)%gathered_links_pass_filter.
  destruct (urljoin_slash _ _ _ Hslash Hjoin) as [Hhttps Hhost]. split; [done|].
  destruct (Py.startswith (Url.remove_unsafe href) "//") eqn:Htwo; [right; eauto | left; auto].
Qed.

(** C1. On a listing whose article tile links to
    [//fr.euronews.com/2024/03/05/budget-vote], the collector gathers
    [https://fr.euronews.com/2024/03/05/budget-vote]: the [href] starts with
    a slash, [urljoin] reads it as a reference with a host of its own, and the
    result passes the filter although it does not start with the scheme and
    host of the base URL. *)
Theorem scheme_relative_link_is_gathered :
  elements (links (collect_links Examples.sister_site_world))
  = ["https://fr.euronews.com/2024/03/05/budget-vote"]
  ∧ Py.startswith "https://fr.euronews.com/2024/03/05/budget-vote" base_origin = false.
Proof. split; reflexivity. Qed.

(** ** The end of the collection *)

(** C3. When the first page loads and holds no article container, the
    collector returns the empty set, the load of the first page is all it
    did, and no page with a number above 0 is loaded. *)
Theorem no_container_on_first_page (w : world) (soup : Soup.node) :
  driver_get w base_url = PageSource soup →
  article_containers soup = [] →
  links (collect_links w) = ∅
  ∧ trace (collect_links w) = [DriverGet base_url]
  ∧ ∀ j, 0 < j → ¬ In (DriverGet (page_url j)) (trace (collect_links w)).
Proof.
  intros Hget Hnone.
  assert (collect_links w = mkCollector ∅ [DriverGet base_url]) as ->.
  { unfold collect_links. change (seq 0 max_pages_to_scrape) with (0 :: seq 1 4).
    cbn [page_loop]. unfold scrape_page. change (page_url 0) with base_url.
    by rewrite Hget, Hnone. }
  split; [done|]. split; [done|].
  intros j Hj [[= Hurl]|[]]. change base_url with (page_url 0) in Hurl.
  apply page_url_inj in Hurl. lia.
Qed.

(** C2, as the code has it. When a page after the first is reached, loads,
    is scanned to the end without an exception, and none of its links
    qualifies ([page_links_found] is 0; the counter counts every qualifying
    link, also one the set already holds), the collection stops there: the
    load of that page is the last thing the collector does, and no page with a
    higher number is loaded.  Neither the end of the scan nor the counter
    depends on the set the scan adds to (lemma [scan_page_shape]). *)
Theorem barren_later_page_ends_collection
    (w : world) (i : nat) (soup : Soup.node) (s : scan_state) :
  0 < i →
  In (DriverGet (page_url i)) (trace (collect_links w)) →
  driver_get w (page_url i) = PageSource soup →
  scan_page w (article_containers soup) ∅ = Completed s →
  page_links_found s = 0 →
  (∃ t, trace (collect_links w) = t ++ [DriverGet (page_url i)])
  ∧ ∀ j, i < j → ¬ In (DriverGet (page_url j)) (trace (collect_links w)).
Proof.
  intros Hi Hreached Hget Hscan Hzero.
  assert (page_control w i = Break) as Hbreak.
  { unfold page_control, scrape_page. rewrite Hget. simpl.
    apply Nat.ltb_lt in Hi. rewrite Hi, andb_true_r.
    destruct (is_empty (article_containers soup)); [done|].
    simpl. rewrite Hscan, Hzero. done. }
  unfold collect_links in *. rewrite page_loop_trace in *. cbn [trace app] in Hreached |- *.
  apply driver_get_visited in Hreached.
  destruct (visited_break _ _ _ Hreached Hbreak) as (pre & post & Hvis & Hseq).
  split.
  - rewrite Hvis, flat_map_app. simpl. rewrite app_nil_r.
    destruct (page_events_head w i) as (tl & -> & _ & Htl). rewrite (Htl Hbreak). eauto.
  - intros j Hj Hin. apply driver_get_visited in Hin. rewrite Hvis in Hin.
    apply in_app_iff in Hin as [Hin|[->|[]]]; [|lia].
    pose proof (seq_before _ _ _ _ _ Hseq j Hin). lia.
Qed.

(** C2 fails as it is stated, also for a page that loads.  In this run the
    second page loads and shows a tile whose only link is [//[]: [urljoin]
    raises [ValueError] on it, the [except Exception] clause logs and
    continues, and the third page is loaded although the second added
    nothing. *)
Lemma page_without_additions_need_not_stop :
  ¬ (∀ (w : world) (i : nat) (soup : Soup.node),
       0 < i →
       In (DriverGet (page_url i)) (trace (collect_links w)) →
       driver_get w (page_url i) = PageSource soup →
       page_additions w i = 0 →
       ∀ j, i < j → ¬ In (DriverGet (page_url j)) (trace (collect_links w))).
Proof.
  intros Hclaim.
  apply (Hclaim Examples.bracket_world 1 Examples.bracket_listing ltac:(lia)) with (j := 2).
  - vm_compute. auto.
  - reflexivity.
  - reflexivity.
  - lia.
  - vm_compute. auto.
Qed.

(** The same happens when the second page does not load in time. *)
Lemma timed_out_page_need_not_stop :
  page_additions Examples.timeout_world 1 = 0
  ∧ driver_gets (trace (collect_links Examples.timeout_world))
    = [page_url 0; page_url 1; page_url 2; page_url 3].
Proof. split; reflexivity. Qed.

(** A later page that repeats a link the set already holds does not stop
    the collection: the counter counts the repeated link. *)
Lemma repeated_link_counts :
  page_additions Examples.timeout_world 2 = 1
  ∧ elements (links (collect_links Examples.timeout_world)) = [Examples.link_a].
Proof. split; reflexivity. Qed.

(** ** Further properties of the two loops *)

(** X1. Every link the collector returns matches the date pattern
    [/\d{4}/\d{2}/\d{2}/] and contains none of the excluded patterns. *)
Theorem collected_links_match_pattern_and_exclusions (w : world) (L : string) :
  L ∈ links (collect_links w) →
  re_search article_pattern L = true
  ∧ ∀ pattern, In pattern excluded_patterns → Py.str_in pattern L = false.
Proof. intros (Hre & Hex & _)%gathered_links_pass_filter. auto. Qed.

(** *** Where a gathered link comes from *)

Lemma for_each_reached_inv_in {A S : Type} (I : S → Prop) (body : A → S → flow S)
    (l : list A) :
  (∀ x s, In x l → I s → I (reached (body x s))) →
  ∀ s, I s → I (reached (for_each body l s)).
Proof.
  induction l as [|x l IH]; intros Hbody s Hs; [done|].
  simpl. pose proof (Hbody x s (or_introl eq_refl) Hs) as Hx.
  destruct (body x s) as [s1|s1]; simpl in *; [|done].
  apply IH; [|done]. intros y s0 Hy. apply Hbody. by right.
Qed.

(** what a scan adds to the set are joins of [href]s of the page's link
    elements, each starting with a slash *)
Lemma scan_page_from_page (w : world) (containers : list Soup.node) (l : gset string)
    (L : string) :
  L ∈ all_article_links (reached (scan_page w containers l)) →
  L ∈ l
  ∨ ∃ container link_element href,
      In container containers
      ∧ In link_element (link_elements container)
      ∧ Soup.get "href" link_element = Some href
      ∧ Py.startswith href "/" = true
      ∧ Url.urljoin (check_bracketed_netloc w) base_url href = Some L.
Proof.
  set (P := fun L : string =>
              L ∈ l
              ∨ ∃ container link_element href,
                  In container containers
                  ∧ In link_element (link_elements container)
                  ∧ Soup.get "href" link_element = Some href
                  ∧ Py.startswith href "/" = true
                  ∧ Url.urljoin (check_bracketed_netloc w) base_url href = Some L).
  revert L. unfold scan_page.
  apply (for_each_reached_inv_in (fun s => ∀ L, L ∈ all_article_links s → P L));
    [|by left].
  intros container s Hcontainer Hs.
  apply (for_each_reached_inv_in (fun s => ∀ L, L ∈ all_article_links s → P L)); [|done].
  intros link_element s' Hlink Hs'. unfold visit_link.
  destruct (Soup.get "href" link_element) as [href|] eqn:Hhref; [|done].
  destruct (_ && (1 <? String.length href)) eqn:Hcond; [|done].
  destruct (Url.urljoin _ base_url href) as [full_url|] eqn:Hjoin; [|done].
  destruct (qualifies full_url); [|done].
  simpl. intros L [->%elem_of_singleton|HL]%elem_of_union; [|by apply Hs'].
  apply andb_true_iff in Hcond as [[_ Hslash]%andb_true_iff _].
  right. by exists container, link_element, href.
Qed.

Lemma scrape_page_from_page (w : world) (page_num : nat) (c : collector_state) (L : string) :
  L ∈ links (fst (scrape_page w page_num c)) →
  L ∈ links c
  ∨ ∃ href, found_on_page w page_num href
            ∧ Py.startswith href "/" = true
            ∧ Url.urljoin (check_bracketed_netloc w) base_url href = Some L.
Proof.
  unfold scrape_page, found_on_page.
  destruct (driver_get w (page_url page_num)) as [soup| | | |]; try (by left).
  destruct (is_empty (article_containers soup) && (0 <? page_num)); [by left|].
  destruct (is_empty (article_containers soup) && (page_num =? 0)); [by left|].
  pose proof (scan_page_from_page w (article_containers soup) (links c) L) as Hscan.
  cbn [links emit].
  assert (L ∈ all_article_links (reached (scan_page w (article_containers soup) (links c))) →
          L ∈ links c
          ∨ ∃ href,
              (∃ soup0 container link_element,
                 PageSource soup = PageSource soup0
                 ∧ In container (article_containers soup0)
                 ∧ In link_element (link_elements container)
                 ∧ Soup.get "href" link_element = Some href)
              ∧ Py.startswith href "/" = true
              ∧ Url.urljoin (check_bracketed_netloc w) base_url href = Some L) as Hfrom.
  { intros [?|(container & link_element & href & ? & ? & ? & ? & ?)]%Hscan; [by left|].
    right. exists href. split; [|done]. by exists soup, container, link_element. }
  destruct (scan_page w (article_containers soup) (links c)) as [s|s]; simpl in *; [|done].
  by destruct ((page_links_found s =? 0) && (0 <? page_num)).
Qed.

Lemma page_loop_from_page (w : world) (page_nums : list nat) (c : collector_state)
    (L : string) :
  L ∈ links (page_loop w page_nums c) →
  L ∈ links c
  ∨ ∃ i href, In i page_nums
              ∧ found_on_page w i href
              ∧ Py.startswith href "/" = true
              ∧ Url.urljoin (check_bracketed_netloc w) base_url href = Some L.
Proof.
  revert c. induction page_nums as [|n rest IH]; intros c HL; [by left|].
  simpl in HL. pose proof (scrape_page_from_page w n c L) as Hstep.
  assert (L ∈ links (fst (scrape_page w n c)) →
          L ∈ links c
          ∨ ∃ i href, In i (n :: rest)
                      ∧ found_on_page w i href
                      ∧ Py.startswith href "/" = true
                      ∧ Url.urljoin (check_bracketed_netloc w) base_url href = Some L)
    as Hhere.
  { intros [?|(href & ? & ? & ?)]%Hstep; [by left|].
    right. exists n, href. split; [by left | done]. }
  destruct (scrape_page w n c) as [c' [|]]; simpl in *; [|by apply Hhere].
  destruct (IH c' HL) as [Hc'|(i & href & Hi & Hrest)]; [by apply Hhere|].
  right. exists i, href. split; [by right | done].
Qed.

(** X2. Every link the collector returns starts with [https://] and is the
    join of the base URL with an [href] that stands, starting with a slash,
    in a link element inside an article container of one of the listing
    pages; it starts with the scheme and host of the base URL unless that
    [href], tab, carriage return and line feed taken out, starts with two
    slashes. *)
Theorem collected_links_start_with_https (w : world) (L : string) :
  L ∈ links (collect_links w) →
  Py.startswith L "https://" = true
  ∧ ∃ i href,
      i < max_pages_to_scrape
      ∧ found_on_page w i href
      ∧ Py.startswith href "/" = true
      ∧ Url.urljoin (check_bracketed_netloc w) base_url href = Some L
      ∧ (Py.startswith (Url.remove_unsafe href) "//" = false →
         Py.startswith L base_origin = true).
Proof.
  intros HL. unfold collect_links in HL.
  apply page_loop_from_page in HL as [HL|(i & href & Hi & Hpage & Hslash & Hjoin)].
  { by apply not_elem_of_empty in HL. }
  destruct (urljoin_slash _ _ _ Hslash Hjoin) as [Hhttps Hhost].
  split; [done|]. exists i, href. apply in_seq in Hi.
  split; [lia|]. done.
Qed.

(** X3. The article loop requests every link in order, and sleeps exactly
    after the requests that gave a parsed article. *)
Theorem article_loop_sleeps_after_success (w : world) (links_to_process : list string) :
  effects (scrape_articles w links_to_process)
  = flat_map
      (fun link =>
         RequestsGet link ::
         (if failed (requests_get w link) then [] else [TimeSleep article_request_delay]))
      links_to_process.
Proof. unfold scrape_articles. by rewrite article_loop_effects. Qed.

(** X4. A qualifying link that the set already holds leaves the set as it
    is and adds one to [page_links_found]: the counter counts the qualifying
    links met, not the links added to the set. *)
Theorem held_link_is_counted_again
    (w : world) (link_element : Soup.node) (s : scan_state) (href L : string) :
  Soup.get "href" link_element = Some href →
  Py.startswith href "/" = true →
  1 < String.length href →
  Url.urljoin (check_bracketed_netloc w) base_url href = Some L →
  qualifies L = true →
  L ∈ all_article_links s →
  ∃ s', visit_link w link_element s = Completed s'
        ∧ all_article_links s' = all_article_links s
        ∧ page_links_found s' = page_links_found s + 1.
Proof.
  intros Hhref Hslash Hlen Hjoin Hq Hheld. unfold visit_link.
  rewrite Hhref, Hslash. apply Nat.ltb_lt in Hlen. rewrite Hlen, Hjoin, Hq.
  destruct href; [done|]. cbn [Url.nonempty andb].
  eexists. split; [done|]. split; [|done]. simpl.
  apply set_eq. intros x. rewrite elem_of_union, elem_of_singleton.
  split; [intros [->|?]; done | by right].
Qed.

(** The scenario of the specification: one listing page with three
    qualifying links and one link under [/tag/]; the collector returns
    exactly the three, and the table has three rows, one per link. *)
Theorem three_links_three_rows :
  size (links (collect_links Examples.scenario_world)) = 3
  ∧ ("https://www.euronews.com/tag/2024/03/07/politics"
     ∉ links (collect_links Examples.scenario_world))
  ∧ length (article_data (snd (run Examples.scenario_world))) = 3
  ∧ map url (article_data (snd (run Examples.scenario_world)))
    = elements (links (collect_links Examples.scenario_world)).
Proof.
  split; [reflexivity|]. split; [|split; reflexivity].
  rewrite <- elem_of_elements, list_elem_of_In. vm_compute. intuition discriminate.
Qed.

(** ** The rows of the table *)

Lemma record_of_none (w : world) (link : string) :
  record_of w link = None → failed (requests_get w link) = true.
Proof. unfold record_of. by destruct (requests_get w link). Qed.

Lemma urls_of_records (w : world) (l : list string) :
  map url (omap (record_of w) l)
  = List.filter (fun link => negb (failed (requests_get w link))) l.
Proof.
  induction l as [|link l IH]; [done|]. cbn.
  destruct (record_of w link) as [r|] eqn:Hr.
  - apply record_of_url in Hr as [Hurl Hok]. rewrite Hok. cbn. by rewrite Hurl, IH.
  - apply record_of_none in Hr. rewrite Hr. cbn. exact IH.
Qed.

(** X5. The [url] column of the table lists, in the order the links were
    processed, exactly the links whose request gave a parsed article; when
    the processed links are distinct, as those of a set are, no two rows share
    a [url]. *)
Theorem table_rows_follow_successful_links (w : world) (links_to_process : list string) :
  map url (article_data (scrape_articles w links_to_process))
  = List.filter (fun link => negb (failed (requests_get w link))) links_to_process
  ∧ (List.NoDup links_to_process →
     List.NoDup (map url (article_data (scrape_articles w links_to_process)))).
Proof.
  assert (map url (article_data (scrape_articles w links_to_process))
          = List.filter (fun link => negb (failed (requests_get w link))) links_to_process)
    as Heq.
  { unfold scrape_articles. rewrite article_loop_data. apply urls_of_records. }
  split; [done|]. intros Hnodup. rewrite Heq. by apply List.NoDup_filter.
Qed.

(** X6. The table is empty, and the script warns instead of printing rows,
    exactly when the request for every processed link failed; what it prints
    otherwise are at most five rows. *)
Theorem no_data_exactly_when_every_request_failed
    (w : world) (links_to_process : list string) :
  (assemble (article_data (scrape_articles w links_to_process)) = WarnNoData
   ↔ ∀ link, In link links_to_process → failed (requests_get w link) = true)
  ∧ ∀ rows, assemble (article_data (scrape_articles w links_to_process)) = PrintHead rows →
            length rows ≤ 5.
Proof.
  unfold scrape_articles. rewrite article_loop_data. cbn [article_data app].
  split.
  - induction links_to_process as [|link l IH]; [by split|].
    cbn. destruct (record_of w link) as [r|] eqn:Hr.
    + apply record_of_url in Hr as [_ Hok]. split; [done|].
      intros Hall. specialize (Hall link (or_introl eq_refl)). congruence.
    + apply record_of_none in Hr. rewrite IH. split.
      * intros Hall x [<-|Hx]; auto.
      * intros Hall x Hx. apply Hall. by right.
  - intros rows. unfold assemble. destruct (negb _); [|done].
    intros [= <-]. rewrite length_firstn. lia.
Qed.

(** ** The pages the collector loads *)

Lemma driver_gets_app (t1 t2 : list event) :
  driver_gets (t1 ++ t2) = driver_gets t1 ++ driver_gets t2.
Proof. unfold driver_gets. apply omap_app. Qed.

Lemma driver_gets_page_events (w : world) (page_num : nat) :
  driver_gets (page_events w page_num) = [page_url page_num].
Proof.
  destruct (page_events_head w page_num) as (tl & -> & [->| ->] & _); reflexivity.
Qed.

Lemma driver_gets_visited (w : world) (page_nums : list nat) :
  driver_gets (flat_map (page_events w) page_nums) = map page_url page_nums.
Proof.
  induction page_nums as [|n l IH]; [done|].
  simpl. by rewrite driver_gets_app, driver_gets_page_events, IH.
Qed.

Lemma visited_seq (w : world) (a n : nat) :
  ∃ k, k ≤ n ∧ (0 < n → 0 < k) ∧ visited w (seq a n) = seq a k.
Proof.
  revert a. induction n as [|n IH]; intros a.
  - exists 0. split; [lia|]. split; [lia | done].
  - simpl. destruct (page_control w a).
    + destruct (IH (S a)) as (k & Hk & _ & ->). exists (S k).
      split; [lia|]. split; [lia | done].
    + exists 1. split; [lia|]. split; [lia | done].
Qed.

Lemma map_page_url_NoDup (l : list nat) : List.NoDup l → List.NoDup (map page_url l).
Proof.
  induction 1 as [|n l Hn Hl IH]; simpl; constructor; [|done].
  intros (m & Hm%page_url_inj & Hin)%in_map_iff. by subst.
Qed.

(** X7. The collector loads the base URL first and then the pages
    [?page=1], [?page=2], ... in this order without a gap, at least one page
    and at most [max_pages_to_scrape] of them, and no URL twice. *)
Theorem collector_loads_a_prefix_of_pages (w : world) :
  ∃ k, 1 ≤ k ≤ max_pages_to_scrape
       ∧ driver_gets (trace (collect_links w)) = map page_url (seq 0 k)
       ∧ List.NoDup (driver_gets (trace (collect_links w))).
Proof.
  unfold collect_links. rewrite page_loop_trace. cbn [trace app].
  rewrite driver_gets_visited.
  destruct (visited_seq w 0 max_pages_to_scrape) as (k & Hk & Hpos & ->).
  exists k. split; [split; [apply Hpos; unfold max_pages_to_scrape; lia | done]|].
  split; [done|]. apply map_page_url_NoDup, List.seq_NoDup.
Qed.

Lemma break_ends_collection (w : world) (i : nat) :
  In (DriverGet (page_url i)) (trace (collect_links w)) →
  page_control w i = Break →
  (∃ t, trace (collect_links w) = t ++ [DriverGet (page_url i)])
  ∧ ∀ j, i < j → ¬ In (DriverGet (page_url j)) (trace (collect_links w)).
Proof.
  intros Hreached Hbreak.
  unfold collect_links in *. rewrite page_loop_trace in *. cbn [trace app] in Hreached |- *.
  apply driver_get_visited in Hreached.
  destruct (visited_break _ _ _ Hreached Hbreak) as (pre & post & Hvis & Hseq).
  split.
  - rewrite Hvis, flat_map_app. simpl. rewrite app_nil_r.
    destruct (page_events_head w i) as (tl & -> & _ & Htl). rewrite (Htl Hbreak). eauto.
  - intros j Hj Hin. apply driver_get_visited in Hin. rewrite Hvis in Hin.
    apply in_app_iff in Hin as [Hin|[->|[]]]; [|lia].
    pose proof (seq_before _ _ _ _ _ Hseq j Hin). lia.
Qed.

(** X8. When the load of a page, the first one included, raises a
    [WebDriverException] that is neither a timeout nor a missing element, the
    collection ends there: that load is the last thing the collector does,
    and no page with a higher number is loaded. *)
Theorem webdriver_error_stops_collection (w : world) (i : nat) :
  In (DriverGet (page_url i)) (trace (collect_links w)) →
  driver_get w (page_url i) = RaisesWebDriverException →
  (∃ t, trace (collect_links w) = t ++ [DriverGet (page_url i)])
  ∧ ∀ j, i < j → ¬ In (DriverGet (page_url j)) (trace (collect_links w)).
Proof.
  intros Hreached Hget. apply break_ends_collection; [done|].
  unfold page_control, scrape_page. by rewrite Hget.
Qed.

Lemma visited_next (w : world) (pre post : list nat) (i n : nat) :
  List.NoDup (pre ++ i :: n :: post) →
  In i (visited w (pre ++ i :: n :: post)) →
  page_control w i = NextIteration →
  In n (visited w (pre ++ i :: n :: post)).
Proof.
  intros Hnodup Hin Hnext. induction pre as [|p pre IH].
  - simpl. rewrite Hnext. right. by left.
  - simpl in *. apply List.NoDup_cons_iff in Hnodup as [Hp Hnodup].
    destruct Hin as [->|Hin]; [exfalso; apply Hp, in_elt|].
    right. destruct (page_control w p); [by apply IH | destruct Hin].
Qed.

Lemma visited_is_loaded (w : world) (page_nums : list nat) (n : nat) :
  In n (visited w page_nums) →
  In (DriverGet (page_url n)) (flat_map (page_events w) (visited w page_nums)).
Proof.
  intros Hn. apply in_flat_map. exists n. split; [done|].
  destruct (page_events_head w n) as (tl & -> & _). by left.
Qed.

(** X9. When the load of a page raises a timeout, a missing element or an
    exception that is no [WebDriverException], the collection goes on: if
    the page is not the last of the five, the next page is loaded.  This
    holds for the first page too. *)
Theorem skipped_page_is_followed_by_next_page (w : world) (i : nat) :
  In (DriverGet (page_url i)) (trace (collect_links w)) →
  In (driver_get w (page_url i))
     [RaisesTimeoutException; RaisesNoSuchElementException; RaisesOtherException] →
  i + 1 < max_pages_to_scrape →
  In (DriverGet (page_url (i + 1))) (trace (collect_links w)).
Proof.
  intros Hreached Hraise Hlast.
  assert (page_control w i = NextIteration) as Hnext.
  { unfold page_control, scrape_page.
    destruct Hraise as [<-|[<-|[<-|[]]]]; reflexivity. }
  unfold collect_links in *. rewrite page_loop_trace in *. cbn [trace app] in Hreached |- *.
  apply driver_get_visited in Hreached. apply visited_is_loaded.
  assert (seq 0 max_pages_to_scrape
          = seq 0 i ++ i :: (i + 1) :: seq (S (S i)) (max_pages_to_scrape - S (S i))) as Hseq.
  { replace max_pages_to_scrape with (i + S (S (max_pages_to_scrape - S (S i)))) at 1 by lia.
    rewrite seq_app. simpl. by rewrite Nat.add_1_r. }
  rewrite Hseq in *. apply visited_next; [|done..].
  rewrite <- Hseq. apply List.seq_NoDup.
Qed.

(** ** What a scanned page contributes *)

Lemma visit_link_keeps (w : world) (link_element : Soup.node) (s : scan_state) (L : string) :
  L ∈ all_article_links s → L ∈ all_article_links (reached (visit_link w link_element s)).
Proof.
  intros HL. unfold visit_link.
  destruct (Soup.get "href" link_element) as [href|]; [|done].
  destruct (_ && (1 <? String.length href)); [|done].
  destruct (Url.urljoin _ base_url href) as [full_url|]; [|done].
  destruct (qualifies full_url); [|done].
  simpl. apply elem_of_union. by right.
Qed.

Lemma scan_page_keeps (w : world) (containers : list Soup.node) (l : gset string) (L : string) :
  L ∈ l → L ∈ all_article_links (reached (scan_page w containers l)).
Proof.
  intros HL. unfold scan_page.
  apply (for_each_reached_inv (fun s => L ∈ all_article_links s)); [|done].
  intros container s Hs.
  apply (for_each_reached_inv (fun s => L ∈ all_article_links s)); [|done].
  intros link_element s' Hs'. by apply visit_link_keeps.
Qed.

Lemma scrape_page_keeps (w : world) (page_num : nat) (c : collector_state) (L : string) :
  L ∈ links c → L ∈ links (fst (scrape_page w page_num c)).
Proof.
  intros HL. unfold scrape_page.
  destruct (driver_get w (page_url page_num)) as [soup| | | |]; try done.
  destruct (is_empty (article_containers soup) && (0 <? page_num)); [done|].
  destruct (is_empty (article_containers soup) && (page_num =? 0)); [done|].
  pose proof (scan_page_keeps w (article_containers soup) _ L HL) as Hscan.
  simpl in Hscan.
  destruct (scan_page w (article_containers soup) _) as [s|s]; simpl in *; [|done].
  by destruct ((page_links_found s =? 0) && (0 <? page_num)).
Qed.

Lemma page_loop_keeps (w : world) (page_nums : list nat) (c : collector_state) (L : string) :
  L ∈ links c → L ∈ links (page_loop w page_nums c).
Proof.
  revert c. induction page_nums as [|n rest IH]; intros c HL; [done|].
  simpl. pose proof (scrape_page_keeps w n c L HL) as Hstep.
  destruct (scrape_page w n c) as [c' [|]]; simpl in *; [by apply IH | done].
Qed.

(** what the turn of a visited page added is in the set the loop returns *)
Lemma visited_turn (w : world) (page_nums : list nat) (c : collector_state) (i : nat) :
  In i (visited w page_nums) →
  ∃ c0, ∀ L, L ∈ links (fst (scrape_page w i c0)) → L ∈ links (page_loop w page_nums c).
Proof.
  revert c. induction page_nums as [|n rest IH]; intros c Hin; [destruct Hin|].
  simpl in Hin. simpl.
  pose proof (scrape_page_control w n c) as Hctl.
  destruct Hin as [->|Hin].
  - exists c. intros L HL.
    destruct (scrape_page w i c) as [c' [|]]; simpl in *; [by apply page_loop_keeps | done].
  - destruct (scrape_page w n c) as [c' ctl]. simpl in Hctl. subst ctl.
    destruct (page_control w n); [by apply IH | destruct Hin].
Qed.

(** a loop that runs to its end has run the body at each element *)
Lemma for_each_completed_at {A S : Type} (P : S → Prop) (body : A → S → flow S)
    (l : list A) (x : A) (s s' : S) :
  In x l →
  (∀ s0 s1, body x s0 = Completed s1 → P s1) →
  (∀ y s0, P s0 → P (reached (body y s0))) →
  for_each body l s = Completed s' →
  P s'.
Proof.
  intros Hin Hx Hkeep. revert s. induction l as [|y l IH]; intros s Hrun; [destruct Hin|].
  simpl in Hrun. destruct (body y s) as [s1|s1] eqn:Hy; [|done].
  destruct Hin as [->|Hin]; [|by eapply IH].
  specialize (Hx _ _ Hy).
  pose proof (for_each_reached_inv P body Hkeep l s1 Hx) as Hend.
  by rewrite Hrun in Hend.
Qed.

Lemma for_each_completed_inner {A S : Type} (body : A → S → flow S) (l : list A) (s s' : S) :
  for_each body l s = Completed s' → reached (for_each body l s) = s'.
Proof. by intros ->. Qed.

(** X10. Every qualifying link of a page that was reached, loaded and
    scanned to the end is in the set the collector returns, whatever happens
    on later pages: a link element with an [href] inside an article
    container of the page, the [href] starting with a slash and longer than
    one character, its join with the base URL passing the test of line 74. *)
Theorem qualifying_links_of_scanned_pages_are_returned
    (w : world) (i : nat) (soup container link_element : Soup.node) (href L : string) :
  In (DriverGet (page_url i)) (trace (collect_links w)) →
  driver_get w (page_url i) = PageSource soup →
  completed (scan_page w (article_containers soup) ∅) = true →
  In container (article_containers soup) →
  In link_element (link_elements container) →
  Soup.get "href" link_element = Some href →
  Py.startswith href "/" = true →
  1 < String.length href →
  Url.urljoin (check_bracketed_netloc w) base_url href = Some L →
  qualifies L = true →
  L ∈ links (collect_links w).
Proof.
  intros Hreached Hget Hdone Hcontainer Hlink Hhref Hslash Hlen Hjoin Hq.
  unfold collect_links in *. rewrite page_loop_trace in Hreached.
  cbn [trace app] in Hreached. apply driver_get_visited in Hreached.
  destruct (visited_turn w _ (mkCollector ∅ []) i Hreached) as [c0 Hturn].
  apply Hturn. unfold scrape_page. rewrite Hget.
  destruct (article_containers soup) as [|c1 cs] eqn:Hcs; [destruct Hcontainer|].
  cbn [is_empty andb]. rewrite <- Hcs in *. cbn [links emit].
  destruct (scan_page_shape w (article_containers soup) (links c0) ∅) as [Hshape _].
  rewrite Hdone in Hshape.
  destruct (scan_page w (article_containers soup) (links c0)) as [s|s] eqn:Hscan; [|done].
  assert (L ∈ all_article_links s) as HL.
  { unfold scan_page in Hscan.
    apply (for_each_completed_at (fun s => L ∈ all_article_links s) _ _ container _ _
             Hcontainer) in Hscan; [done| |].
    - intros s0 s1 Hinner.
      apply (for_each_completed_at (fun s => L ∈ all_article_links s) _ _ link_element _ _
               Hlink) in Hinner; [done| |].
      + intros s2 s3. unfold visit_link. rewrite Hhref, Hslash.
        apply Nat.ltb_lt in Hlen. rewrite Hlen, Hjoin, Hq.
        cbn [Url.nonempty andb].
        destruct href; [done|]. cbn [Url.nonempty andb].
        intros [= <-]. simpl. apply elem_of_union. left. by apply elem_of_singleton.
      + intros y s2 Hs2. by apply visit_link_keeps.
    - intros y s0 Hs0.
      apply (for_each_reached_inv (fun s => L ∈ all_article_links s)); [|done].
      intros link s2 Hs2. by apply visit_link_keeps. }
  by destruct ((page_links_found s =? 0) && (0 <? i)).
Qed.

(** ** The delay between pages *)






(** ** The container test *)

Lemma str_in_spec (sub s : string) :
  Py.str_in sub s = true ↔ ∃ pre suf, s = pre +:+ sub +:+ suf.
Proof.
  split.
  - induction s as [|c s IH]; simpl.
    + rewrite orb_false_r. intros [rest ->]%startswith_inv. by exists "", rest.
    + intros [[rest ->]%startswith_inv|Hin]%orb_true_iff; [by exists "", rest|].
      destruct (IH Hin) as (pre & suf & ->). by exists (String c pre), suf.
  - intros (pre & suf & ->). induction pre as [|c pre IH].
    + change ("" +:+ sub +:+ suf) with (sub +:+ suf).
      destruct (sub +:+ suf) eqn:Heq; simpl; rewrite <- Heq, startswith_app; done.
    + change (String c pre +:+ sub +:+ suf) with (String c (pre +:+ sub +:+ suf)).
      simpl. rewrite IH. apply orb_true_r.
Qed.

Lemma str_in_article_tile (x : string) :
  Py.str_in "c-article-tile" x = true → Py.str_in "article" x = true.
Proof.
  intros (pre & suf & ->)%str_in_spec. apply str_in_spec.
  exists (pre +:+ "c-"), ("-tile" +:+ suf).
  change "c-article-tile" with ("c-" +:+ "article" +:+ "-tile").
  by rewrite !append_assoc_str.
Qed.

(** X12. The last alternative of the container test, ['c-article-tile' in
    x], never decides: a class that contains [c-article-tile] contains
    [article], so the test without it picks the same containers on every
    page. *)
Theorem tile_alternative_never_decides (soup : Soup.node) :
  (∀ x, container_class x = container_class_without_tile x)
  ∧ article_containers soup
    = Soup.find_all
        (fun t => Soup.named ["article"; "div"; "section"] t
                  && Soup.class_matches container_class_without_tile t)
        soup.
Proof.
  assert (∀ x, container_class x = container_class_without_tile x) as Hsame.
  { intros [x|]; [|done]. unfold container_class, container_class_without_tile.
    destruct (Py.str_in "c-article-tile" x) eqn:Htile; [|by rewrite orb_false_r].
    by rewrite (str_in_article_tile x Htile). }
  split; [done|]. unfold article_containers, Soup.find_all.
  apply filter_ext. intros t. f_equal. f_equal.
  destruct t as [| |name [tokens|] attrs contents|]; try done.
  unfold Soup.class_matches. rewrite Hsame. f_equal.
  induction tokens as [|token tokens IH]; [done|].
  cbn [existsb]. by rewrite Hsame, IH.
Qed.

(** ** Texts taken with [get_text(strip=True)] *)

Lemma lstrip_space_head (s : string) :
  Py.lstrip_space s = "" ∨ ∃ a r, Py.lstrip_space s = String a r ∧ Py.isspace a = false.
Proof.
  induction s as [|a s IH]; [by left|].
  simpl. destruct (Py.isspace a) eqn:Ha; [exact IH | right; eauto].
Qed.

Lemma rstrip_space_last (s : string) :
  match last_chr (Py.rstrip_space s) with
  | Some b => Py.isspace b = false
  | None => True
  end.
Proof.
  induction s as [|a s IH]; [done|].
  simpl. destruct (Py.rstrip_space s) as [|b r].
  - by destruct (Py.isspace a) eqn:Ha.
  - exact IH.
Qed.

Lemma rstrip_space_head (a : ascii) (s : string) :
  Py.isspace a = false → ∃ r, Py.rstrip_space (String a s) = String a r.
Proof.
  intros Ha. simpl. destruct (Py.rstrip_space s); [rewrite Ha|]; eauto.
Qed.

Lemma strip_trimmed (s : string) : trimmed (Py.strip s) = true.
Proof.
  unfold Py.strip. destruct (lstrip_space_head s) as [->|(a & r & -> & Ha)]; [done|].
  pose proof (rstrip_space_last (String a r)) as Hlast.
  destruct (rstrip_space_head a r Ha) as [r' Heq]. rewrite Heq in *.
  unfold trimmed. rewrite Ha. cbn [negb andb].
  destruct (last_chr (String a r')); [by rewrite Hlast | done].
Qed.

Lemma last_chr_app (s1 s2 : string) :
  Url.nonempty s2 = true → last_chr (s1 +:+ s2) = last_chr s2.
Proof.
  intros Hne. induction s1 as [|a s1 IH]; [done|].
  change (String a s1 +:+ s2) with (String a (s1 +:+ s2)).
  destruct (s1 +:+ s2) as [|b r] eqn:Happ.
  - destruct s1; [|done]. change ("" +:+ s2) with s2 in Happ. by subst.
  - exact IH.
Qed.

Lemma join_trimmed (l : list string) :
  List.Forall (fun x => Url.nonempty x = true ∧ trimmed x = true) l →
  trimmed (Py.join "" l) = true ∧ (l ≠ [] → Url.nonempty (Py.join "" l) = true).
Proof.
  induction 1 as [|x l [Hne Htr] Hl [IHtr IHne]]; [done|].
  destruct l as [|y l]; [done|]. split; [|by destruct x].
  change (Py.join "" (x :: y :: l)) with (x +:+ Py.join "" (y :: l)).
  specialize (IHne ltac:(done)).
  unfold trimmed in *. rewrite last_chr_app by done.
  apply andb_true_iff in Htr as [Hfirst _]. apply andb_true_iff in IHtr as [_ Hlast].
  destruct x as [|a x]; [done|].
  change (String a x +:+ Py.join "" (y :: l)) with (String a (x +:+ Py.join "" (y :: l))).
  cbv iota. by rewrite Hfirst, Hlast.
Qed.

Lemma get_text_strip_trimmed (n : Soup.node) : trimmed (Soup.get_text_strip n) = true.
Proof.
  unfold Soup.get_text_strip. apply join_trimmed.
  apply List.Forall_forall. intros x [(y & <- & _)%in_map_iff Hne]%filter_In.
  split; [done | apply strip_trimmed].
Qed.

(** X13. A text the script takes from a tag never starts or ends with white
    space: the title, the author found by a byline selector, the date found
    in the date span and every text of a tag are trimmed (or empty, or the
    sentinel). *)
Theorem extracted_texts_are_trimmed (article_soup : Soup.node) :
  trimmed (extract_title article_soup) = true
  ∧ trimmed (author_from_byline article_soup) = true
  ∧ trimmed (date_from_span article_soup) = true
  ∧ ∀ t, trimmed (Soup.get_text_strip t) = true.
Proof.
  split; [|split; [|split; [|apply get_text_strip_trimmed]]].
  - unfold extract_title. case_find t Ht; [apply get_text_strip_trimmed | done].
  - unfold author_from_byline. case_find byline_div Hdiv; [|done].
    case_find t Hspan; [apply get_text_strip_trimmed|].
    case_find t Ha; [apply get_text_strip_trimmed | done].
  - unfold date_from_span. case_find t Ht; [apply get_text_strip_trimmed | done].
Qed.

(** ** The date and content cascades *)

(** X14. In a document where no [time] tag carries a [datetime] attribute
    and that contains a [meta] tag with [property="article:published_time"],
    the tags of that kind carrying the content [d], the publication date is
    [d], whatever a [pubdate] [meta] tag or a date span says. *)
Theorem published_time_meta_gives_the_date (article_soup m : Soup.node) (d : string) :
  (∀ t, In t (Soup.descendants article_soup) →
        Soup.named ["time"] t = true → Soup.get "datetime" t = None) →
  In m (Soup.descendants article_soup) →
  Soup.named ["meta"] m = true →
  Soup.attr_is "property" "article:published_time" m = true →
  (∀ t, In t (Soup.descendants article_soup) →
        Soup.named ["meta"] t = true →
        Soup.attr_is "property" "article:published_time" t = true →
        Soup.get "content" t = Some d) →
  extract_publication_date article_soup = d.
Proof.
  intros Htime Hin Hmeta Hprop Hall.
  assert (date_from_meta article_soup = d) as Hfrom_meta.
  { unfold date_from_meta.
    assert (Soup.is_tag m = true) as Htag by (by destruct m).
    destruct (find_is_some
                (fun t => Soup.named ["meta"] t
                          && Soup.attr_is "property" "article:published_time" t)
                _ _ Hin Htag) as [m' Hm']; [by rewrite Hmeta, Hprop|].
    rewrite Hm'. cbn [or_else].
    apply find_some in Hm' as (Hin' & _ & [Hmeta' Hprop']%andb_true_iff).
    by rewrite (Hall _ Hin' Hmeta' Hprop'). }
  unfold extract_publication_date. case_find t Ht; [|done].
  apply find_some in Ht as (Hint & _ & Hnamed). by rewrite (Htime _ Hint Hnamed).
Qed.

(** X15. When no tag has the class [c-article-content] and the first [div]
    of class [c-article__body] holds no [p] tag, the content is ["N/A"]: the
    [article] element is looked at only when there is no such [div], so its
    paragraphs are not taken. *)
Theorem empty_body_container_blocks_article_fallback (article_soup article_body : Soup.node) :
  (∀ t, In t (article_soup :: Soup.descendants article_soup) →
        Soup.has_class "c-article-content" t = false) →
  Soup.find (fun t => Soup.named ["div"] t && Soup.class_is "c-article__body" t) article_soup
  = Some article_body →
  Soup.find_all (Soup.named ["p"]) article_body = [] →
  extract_content article_soup = NA.
Proof.
  intros Hprimary Hbody Hnone. unfold extract_content.
  destruct (Soup.select_child "div" "c-article-content" "p" article_soup) as [|x l] eqn:Hsel.
  - simpl. by rewrite Hbody, Hnone.
  - exfalso. destruct (select_child_parent "div" "c-article-content" "p" article_soup x)
      as (t & Ht & Hcls); [rewrite Hsel; by left|].
    by rewrite (Hprimary _ Ht) in Hcls.
Qed.

(* ===================================================================== *)
(** * The statements at concrete documents and runs *)
(* ===================================================================== *)

Lemma no_container_on_first_page_witness :
  links (collect_links Examples.bare_world) = ∅
  ∧ trace (collect_links Examples.bare_world) = [DriverGet base_url]
  ∧ ∀ j, 0 < j → ¬ In (DriverGet (page_url j)) (trace (collect_links Examples.bare_world)).
Proof.
  apply (no_container_on_first_page Examples.bare_world
           (Examples.document [Examples.paragraph "Under maintenance"]));
    reflexivity.
Defined.

Lemma barren_later_page_witness :
  (∃ t, trace (collect_links Examples.barren_world) = t ++ [DriverGet (page_url 1)])
  ∧ ∀ j, 1 < j → ¬ In (DriverGet (page_url j)) (trace (collect_links Examples.barren_world)).
Proof.
  apply (barren_later_page_ends_collection Examples.barren_world 1 Examples.tag_listing
           (mkScan ∅ 0)).
  - lia.
  - vm_compute. auto.
  - reflexivity.
  - reflexivity.
  - reflexivity.
Defined.

Lemma parsed_article_witness :
  ∃ r : ArticleRecord,
    article_data (process_link Examples.served_world Examples.link_a (mkExtractor [] [])) = [r]
    ∧ url r = Examples.link_a.
Proof.
  destruct (parsed_article_appends_full_record Examples.served_world Examples.link_a
              Examples.meta_author_article (mkExtractor [] []) eq_refl)
    as (r & Hdata & Hurl & _).
  exists r. split; [exact Hdata | exact Hurl].
Defined.

Lemma failed_fetch_witness :
  (∀ e, article_data (process_link Examples.gone_world Examples.link_a e) = article_data e)
  ∧ (∀ links_to_process r,
       In r (article_data (scrape_articles Examples.gone_world links_to_process)) →
       url r ≠ Examples.link_a)
  ∧ (∀ links_to_process l,
       In l links_to_process →
       In (RequestsGet l) (effects (scrape_articles Examples.gone_world links_to_process))).
Proof.
  apply (failed_fetch_leaves_no_record Examples.gone_world Examples.link_a). reflexivity.
Defined.

Lemma meta_author_witness :
  extract_author Examples.meta_author_article = "Jane Doe".
Proof.
  apply (meta_author_jane_doe Examples.meta_author_article
           (Soup.Tag "meta" None {["name" := "author"; "content" := "Jane Doe"]} [])).
  - intros t Hin. pose proof I as Hpre. each_node Hin Hpre.
  - vm_compute. auto.
  - reflexivity.
  - reflexivity.
  - intros t Hin Hmeta _. each_node Hin Hmeta.
Defined.

Lemma generic_article_witness :
  extract_content Examples.plain_article = "A." +:+ newline +:+ "B.".
Proof.
  apply (generic_article_two_paragraphs Examples.plain_article
           (Soup.Tag "article" None ∅ [Examples.paragraph "A."; Examples.paragraph "B."])
           (Examples.paragraph "A.") (Examples.paragraph "B.")).
  - intros t Hin. pose proof I as Hpre. each_node Hin Hpre.
  - intros t Hin. pose proof I as Hpre. each_node Hin Hpre.
  - reflexivity.
  - reflexivity.
  - reflexivity.
  - reflexivity.
Defined.

Lemma records_never_exceed_links_witness :
  length (article_data (scrape_articles Examples.barren_world [Examples.link_a])) < 1.
Proof.
  destruct (records_never_exceed_links Examples.barren_world [Examples.link_a] 1)
    as [_ Hless].
  - reflexivity.
  - apply Hless. exists Examples.link_a. split; [|reflexivity].
    apply elem_of_elements, list_elem_of_In. vm_compute. auto.
Defined.

Lemma collected_links_filter_witness :
  re_search article_pattern Examples.link_a = true
  ∧ ∀ pattern, In pattern excluded_patterns → Py.str_in pattern Examples.link_a = false.
Proof.
  apply (collected_links_match_pattern_and_exclusions Examples.barren_world).
  apply elem_of_elements, list_elem_of_In. vm_compute. auto.
Defined.

Lemma webdriver_error_witness :
  (∃ t, trace (collect_links Examples.broken_session_world) = t ++ [DriverGet (page_url 1)])
  ∧ ∀ j, 1 < j →
         ¬ In (DriverGet (page_url j)) (trace (collect_links Examples.broken_session_world)).
Proof.
  apply (webdriver_error_stops_collection Examples.broken_session_world 1).
  - vm_compute. auto.
  - reflexivity.
Defined.

Lemma skipped_page_witness :
  In (DriverGet (page_url (1 + 1))) (trace (collect_links Examples.timeout_world)).
Proof.
  apply (skipped_page_is_followed_by_next_page Examples.timeout_world 1).
  - vm_compute. auto.
  - vm_compute. auto.
  - unfold max_pages_to_scrape. lia.
Defined.

Lemma qualifying_links_witness :
  Examples.link_a ∈ links (collect_links Examples.barren_world).
Proof.
  apply (qualifying_links_of_scanned_pages_are_returned Examples.barren_world 0
           Examples.front_listing
           (Examples.tile [Examples.anchor "/2024/03/05/budget-vote" "Budget vote"])
           (Examples.anchor "/2024/03/05/budget-vote" "Budget vote")
           "/2024/03/05/budget-vote").
  - vm_compute. auto.
  - reflexivity.
  - reflexivity.
  - vm_compute. auto.
  - vm_compute. auto.
  - reflexivity.
  - reflexivity.
  - simpl. lia.
  - reflexivity.
  - reflexivity.
Defined.


Lemma published_time_witness :
  extract_publication_date Examples.dated_article = "2024-03-05T10:00:00+01:00".
Proof.
  apply (published_time_meta_gives_the_date Examples.dated_article
           (Soup.Tag "meta" None
              {["property" := "article:published_time";
                "content" := "2024-03-05T10:00:00+01:00"]} [])).
  - intros t Hin Htime. each_node Hin Htime.
  - vm_compute. auto.
  - reflexivity.
  - reflexivity.
  - intros t Hin Hmeta Hprop. vm_compute in Hin.
    repeat (destruct Hin as [<-|Hin];
            [first [reflexivity | (vm_compute in Hmeta; discriminate Hmeta)
                   | (vm_compute in Hprop; discriminate Hprop)] |]).
    destruct Hin.
Defined.

Lemma empty_body_witness :
  extract_content Examples.empty_body_article = NA.
Proof.
  apply (empty_body_container_blocks_article_fallback Examples.empty_body_article
           (Soup.Tag "div" (Some ["c-article__body"]) ∅ [Soup.NavigableString "Loading"])).
  - intros t Hin. pose proof I as Hpre. each_node Hin Hpre.
  - reflexivity.
  - reflexivity.
Defined.

Lemma first_author_meta_witness :
  extract_author Examples.two_author_metas = "John Roe"
  ∧ extract_author Examples.meta_author_article = "Jane Doe".
Proof.
  split; [reflexivity|].
  apply (first_author_meta_is_extracted Examples.meta_author_article
           (Soup.Tag "meta" None {["name" := "author"; "content" := "Jane Doe"]} []) []).
  - intros t Hin. pose proof I as Hpre. each_node Hin Hpre.
  - reflexivity.
  - reflexivity.
Defined.

Lemma collected_links_https_witness :
  Py.startswith "https://fr.euronews.com/2024/03/05/budget-vote" "https://" = true
  ∧ ∃ i href,
      i < max_pages_to_scrape
      ∧ found_on_page Examples.sister_site_world i href
      ∧ Py.startswith href "/" = true
      ∧ Url.urljoin (check_bracketed_netloc Examples.sister_site_world) base_url href
        = Some "https://fr.euronews.com/2024/03/05/budget-vote"
      ∧ (Py.startswith (Url.remove_unsafe href) "//" = false →
         Py.startswith "https://fr.euronews.com/2024/03/05/budget-vote" base_origin = true).
Proof.
  apply (collected_links_start_with_https Examples.sister_site_world).
  apply elem_of_elements, list_elem_of_In. vm_compute. auto.
Defined.

Lemma held_link_witness :
  ∃ s', visit_link Examples.barren_world
          (Examples.anchor "/2024/03/05/budget-vote" "Budget vote")
          (mkScan {[Examples.link_a]} 1) = Completed s'
        ∧ all_article_links s' = {[Examples.link_a]}
        ∧ page_links_found s' = 1 + 1.
Proof.
  refine (held_link_is_counted_again Examples.barren_world
            (Examples.anchor "/2024/03/05/budget-vote" "Budget vote")
            (mkScan {[Examples.link_a]} 1) "/2024/03/05/budget-vote" Examples.link_a
            _ _ _ _ _ _).
  - reflexivity.
  - reflexivity.
  - simpl. lia.
  - reflexivity.
  - reflexivity.
  - change (Examples.link_a ∈ ({[Examples.link_a]} : gset string)).
    apply elem_of_singleton. reflexivity.
Defined.
